(** * PC104 standoff plate: the geometry recipe of [cad/pc104_stand.py]

    The script holds two configuration records ([PC104Spec], [StandSpec]),
    one geometry-building function ([make_pc104_standoff]) and a driver that
    checks the part and exports it.

    Numbers.  The Python [float] fields hold lengths in millimetres.  For the
    geometry they are read as exact rationals ([Q]), a decimal literal
    standing for its decimal value, and [int] fields as [Z]; equality of
    lengths is [Qeq] ([==]).  The arithmetic the script itself does on them
    ([stack_headers_center_coord]) is also given as it runs, on binary64
    floats, in module [b64]: sums and products that cancel in [Q] are rounded
    there.

    Geometry.  The calls into the CAD kernel ([bd.Box], [bd.Cylinder],
    [translate], [fillet], [+], [-]) are kept as a term of type [bd.Part], the
    construction tree the script builds; [bd.contains] reads such a tree as
    the set of points of the solid. *)

From Stdlib Require Import QArith ZArith List String Bool Lqa Lia.
From Stdlib Require Floats.
Import ListNotations.

Local Open Scope Q_scope.

(* ================================================================== *)
(** ** Exceptions *)

Inductive exn : Type :=
| AssertionError (msg : string)
| OSError (msg : string)
| OverflowError (msg : string)
| RuntimeError (msg : string)
| KernelError (msg : string).

Inductive result (A : Type) : Type :=
| Ok (a : A)
| Raise (e : exn).

Arguments Ok {A} a.
Arguments Raise {A} e.

Definition bind {A B : Type} (m : result A) (k : A -> result B) : result B :=
  match m with
  | Ok a => k a
  | Raise e => Raise e
  end.

Notation "x <- m ;; k" := (bind m (fun x => k))
  (at level 61, m at next level, right associativity).

(* ================================================================== *)
(** ** The configuration records *)

Definition coord : Type := (Q * Q)%type.

Record PC104Spec : Type := mkPC104Spec {
  top_left_pin_coord : coord;
  pin_count_x : Z;
  pin_count_y : Z;
  pin_pitch : Q;
  box_width_x : Q;
  box_height_y : Q;
  box_top_left_coord : coord
}.

Record StandSpec : Type := mkStandSpec {
  base_plate_thickness : Q;
  plate_plate_corner_radius : Q;
  standoff_total_height : Q;
  standoff_id : Q;
  standoff_od_east : Q;
  standoff_od_west : Q
}.

(** [__post_init__] of both dataclasses has a docstring for a body. *)
Definition PC104Spec_post_init (self : PC104Spec) : result unit := Ok tt.

Definition StandSpec_post_init (self : StandSpec) : result unit := Ok tt.

(** The generated [__init__]: store the fields, then run [__post_init__]. *)
Definition PC104Spec_init (top_left_pin_coord : coord)
    (pin_count_x pin_count_y : Z) (pin_pitch box_width_x box_height_y : Q)
    (box_top_left_coord : coord) : result PC104Spec :=
  let self := mkPC104Spec top_left_pin_coord pin_count_x pin_count_y pin_pitch
                          box_width_x box_height_y box_top_left_coord in
  _ <- PC104Spec_post_init self ;;
  Ok self.

Definition StandSpec_init (base_plate_thickness plate_plate_corner_radius
    standoff_total_height standoff_id standoff_od_east standoff_od_west : Q)
    : result StandSpec :=
  let self := mkStandSpec base_plate_thickness plate_plate_corner_radius
                          standoff_total_height standoff_id
                          standoff_od_east standoff_od_west in
  _ <- StandSpec_post_init self ;;
  Ok self.

(** The field defaults: [PC104Spec()] and [StandSpec()]. *)
Definition PC104Spec_default : PC104Spec :=
  mkPC104Spec (0, 0) 4 26 2.54 94.54 88.1 (-4.4, 11.63).

Definition StandSpec_default : StandSpec :=
  mkStandSpec 2.0 3.0 9.5 3.5 6.5 5.8.

(** The property [hole_coord_list]: a dict literal, kept as an association
    list in insertion order, the order in which [.items()] yields it. *)
Definition hole_coord_list (self : PC104Spec) : list (string * coord) :=
  [ ("NW"%string, (0, 5.08));
    ("NE"%string, (85.73, 7.62));
    ("SW"%string, (0, -68.58));
    ("SE"%string, (85.73, -72.39)) ].

(** The property [stack_headers_center_coord]. *)
Definition stack_headers_center_coord (self : PC104Spec) : coord :=
  ( fst (top_left_pin_coord self)
    + (inject_Z (pin_count_x self - 1) * pin_pitch self / 2),
    snd (top_left_pin_coord self)
    - (inject_Z (pin_count_y self - 1) * pin_pitch self / 2) ).

(** Dict lookup by key. *)
Fixpoint dict_get {V : Type} (d : list (string * V)) (k : string) : option V :=
  match d with
  | [] => None
  | (k', v) :: d' => if String.eqb k k' then Some v else dict_get d' k
  end.

Definition dict_keys {V : Type} (d : list (string * V)) : list string :=
  map fst d.

(** Equality of two planar coordinates, component by component. *)
Definition coord_eq (a b : coord) : Prop :=
  fst a == fst b /\ snd a == snd b.

(* ================================================================== *)
(** ** The script's own arithmetic, on binary64 floats *)

Module b64.

Import Floats.

Set Warnings "-inexact-float".

Local Open Scope float_scope.

(** [float(z)] for an [int]: the nearest binary64 value, ties to even;
    an [int] too large for a float raises [OverflowError]. *)
Definition float_of_int (z : Z) : result float :=
  match binary_normalize prec emax z 0 false with
  | S754_infinity _ => Raise (OverflowError "int too large to convert to float")
  | sf => Ok (SF2Prim sf)
  end.

(** The property [stack_headers_center_coord], on the fields it reads:
    [int - int] is exact, [int * float] converts the [int] first, and
    [/ 2] divides by the float 2. *)
Definition stack_headers_center_coord (top_left_pin_coord : float * float)
    (pin_count_x pin_count_y : Z) (pin_pitch : float)
    : result (float * float) :=
  nx <- float_of_int (pin_count_x - 1) ;;
  ny <- float_of_int (pin_count_y - 1) ;;
  Ok ( fst top_left_pin_coord + (nx * pin_pitch / 2),
       snd top_left_pin_coord - (ny * pin_pitch / 2) ).

(** The field defaults the property reads. *)
Definition default_top_left_pin_coord : float * float := (0, 0).

Definition default_pin_count_x : Z := 4.

Definition default_pin_pitch : float := 2.54.

(** The decimal constants the properties name. *)
Definition f_3_81 : float := 3.81.

Definition f_minus_31_75 : float := -31.75.

(** Python's [==] on floats. *)
Definition py_eq (a b : float) : bool := PrimFloat.eqb a b.

(** The number a finite float stands for. *)
Definition to_Q (f : float) : option Q :=
  match Prim2SF f with
  | S754_zero _ => Some 0%Q
  | S754_finite s m e =>
      Some (inject_Z (if s then Z.neg m else Z.pos m) * Qpower 2 e)%Q
  | _ => None
  end.

(** The Y coordinate for [pin_count_y = n], the other fields at their
    defaults. *)
Definition default_y (n : Z) : result float :=
  c <- stack_headers_center_coord default_top_left_pin_coord
         default_pin_count_x n default_pin_pitch ;;
  Ok (snd c).

(** How far the change of Y from [n] to [n + 1] pins is from
    [- pin_pitch / 2], as an exact number. *)
Definition shift_error (n : Z) : option Q :=
  match default_y n, default_y (n + 1) with
  | Ok y0, Ok y1 =>
      match to_Q y0, to_Q y1, to_Q default_pin_pitch with
      | Some q0, Some q1, Some p =>
          let d := (q1 - q0 + p / 2)%Q in
          Some (if Qle_bool 0 d then d else (- d)%Q)
      | _, _, _ => None
      end
  | _, _ => None
  end.

(** The two ways to read "Y changes by exactly [- pin_pitch / 2]" from [n]
    to [n + 1] pins, with Python's float operations and [==]. *)
Definition exact_as_difference (n : Z) : option bool :=
  match default_y n, default_y (n + 1) with
  | Ok y0, Ok y1 => Some (py_eq (y1 - y0) (- default_pin_pitch / 2))
  | _, _ => None
  end.

Definition exact_as_sum (n : Z) : option bool :=
  match default_y n, default_y (n + 1) with
  | Ok y0, Ok y1 => Some (py_eq y1 (y0 + (- default_pin_pitch / 2)))
  | _, _ => None
  end.

Definition within (tol : Q) (e : option Q) : bool :=
  match e with
  | Some q => Qle_bool q tol
  | None => false
  end.

(** The pin counts [lo], [lo + 1], ..., [lo + len - 1]. *)
Fixpoint counts (lo : Z) (len : nat) : list Z :=
  match len with
  | O => []
  | S len' => lo :: counts (lo + 1) len'
  end.

End b64.

(* ================================================================== *)
(** ** The CAD kernel interface used by the script ([import build123d as bd]) *)

Module bd.

Inductive Align : Type := MIN | CENTER | MAX.

Inductive Axis : Type := Axis_X | Axis_Y | Axis_Z.

Definition Vector : Type := (Q * Q * Q)%type.

Definition vx (v : Vector) : Q := fst (fst v).
Definition vy (v : Vector) : Q := snd (fst v).
Definition vz (v : Vector) : Q := snd v.

Definition vadd (a b : Vector) : Vector :=
  (vx a + vx b, vy a + vy b, vz a + vz b).

Definition vsub (a b : Vector) : Vector :=
  (vx a - vx b, vy a - vy b, vz a - vz b).

(** A straight edge, from one vertex to the other. *)
Record Edge : Type := mkEdge { e_start : Vector; e_end : Vector }.

(** The construction tree.  [Empty] is [bd.Part(None)]; [add] and [sub] are
    the operators [+] and [-] (and [+=], [-=]); [translate] and [fillet]
    are the methods of the same names. *)
Inductive Part : Type :=
| Empty
| Box (length width height : Q) (align : Align * Align * Align)
| Cylinder (radius height : Q) (align : Align * Align * Align)
| translate (s : Part) (v : Vector)
| add (a b : Part)
| sub (a b : Part)
| fillet (s : Part) (radius : Q) (edge_list : list Edge).

(** Where an aligned extent of size [len] starts on its axis. *)
Definition align_lo (a : Align) (len : Q) : Q :=
  match a with
  | MIN => 0
  | CENTER => - (len / 2)
  | MAX => - len
  end.

Definition align_hi (a : Align) (len : Q) : Q := align_lo a len + len.

(** The twelve edges of an axis-parallel box with opposite corners
    [(x0,y0,z0)] and [(x1,y1,z1)]. *)
Definition box_edges (x0 x1 y0 y1 z0 z1 : Q) : list Edge :=
  [ mkEdge (x0, y0, z0) (x1, y0, z0); mkEdge (x0, y1, z0) (x1, y1, z0);
    mkEdge (x0, y0, z1) (x1, y0, z1); mkEdge (x0, y1, z1) (x1, y1, z1);
    mkEdge (x0, y0, z0) (x0, y1, z0); mkEdge (x1, y0, z0) (x1, y1, z0);
    mkEdge (x0, y0, z1) (x0, y1, z1); mkEdge (x1, y0, z1) (x1, y1, z1);
    mkEdge (x0, y0, z0) (x0, y0, z1); mkEdge (x1, y0, z0) (x1, y0, z1);
    mkEdge (x0, y1, z0) (x0, y1, z1); mkEdge (x1, y1, z0) (x1, y1, z1) ].

Definition move_edge (v : Vector) (e : Edge) : Edge :=
  mkEdge (vadd (e_start e) v) (vadd (e_end e) v).

(** [s.edges()], for the shapes whose edges the script asks for: a box, a
    moved shape, and the union of the empty part with a shape.  The edges
    of curved solids and of other boolean results are the kernel's
    business and are not listed. *)
Fixpoint edges (s : Part) : list Edge :=
  match s with
  | Box l w h (ax, ay, az) =>
      box_edges (align_lo ax l) (align_hi ax l)
                (align_lo ay w) (align_hi ay w)
                (align_lo az h) (align_hi az h)
  | translate s' v => map (move_edge v) (edges s')
  | add Empty b => edges b
  | _ => []
  end.

Definition Qeqb (a b : Q) : bool := Qle_bool a b && Qle_bool b a.

(** Is the edge parallel to the given axis? *)
Definition parallel_to (a : Axis) (e : Edge) : bool :=
  let d := vsub (e_end e) (e_start e) in
  match a with
  | Axis_X => Qeqb (vy d) 0 && Qeqb (vz d) 0 && negb (Qeqb (vx d) 0)
  | Axis_Y => Qeqb (vx d) 0 && Qeqb (vz d) 0 && negb (Qeqb (vy d) 0)
  | Axis_Z => Qeqb (vx d) 0 && Qeqb (vy d) 0 && negb (Qeqb (vz d) 0)
  end.

(** [edge_list.filter_by(axis)]. *)
Definition filter_by (a : Axis) (l : list Edge) : list Edge :=
  filter (parallel_to a) l.

Definition Qlt_bool (a b : Q) : bool := negb (Qle_bool b a).

Definition Qabs_ (a : Q) : Q := if Qle_bool 0 a then a else - a.

Definition sq (a : Q) : Q := a * a.

Definition lower (a b : Q) : Q := if Qle_bool a b then a else b.

Definition upper (a b : Q) : Q := if Qle_bool a b then b else a.

(** The material a fillet of radius [r] takes away along a vertical convex
    right-angle edge: the points of the [r] by [r] corner square that lie
    outside the quarter circle of radius [r] inscribed in it. *)
Definition fillet_cuts (r : Q) (e : Edge) (p : Vector) : bool :=
  parallel_to Axis_Z e
  && Qle_bool (lower (vz (e_start e)) (vz (e_end e))) (vz p)
  && Qle_bool (vz p) (upper (vz (e_start e)) (vz (e_end e)))
  && Qlt_bool (Qabs_ (vx p - vx (e_start e))) r
  && Qlt_bool (Qabs_ (vy p - vy (e_start e))) r
  && Qlt_bool (sq r) (sq (r - Qabs_ (vx p - vx (e_start e)))
                      + sq (r - Qabs_ (vy p - vy (e_start e)))).

(** Offset of a cylinder's axis from the origin, for one planar axis. *)
Definition align_center (a : Align) (r : Q) : Q :=
  match a with
  | MIN => r
  | CENTER => 0
  | MAX => - r
  end.

(** The points of the solid a construction tree stands for, for trees whose
    boxes and cylinders have positive sizes (the kernel gives no usable solid
    for a primitive of size 0).  Primitives are closed (their faces belong to
    them); [+] is union and [-] is plain set difference, so a point on a
    face of a cutter counts as removed, where the kernel reports it as lying
    on the boundary of the result.  Statements meant for every point
    therefore speak of the points strictly inside a cutter. *)
Fixpoint contains (s : Part) (p : Vector) : bool :=
  match s with
  | Empty => false
  | Box l w h (ax, ay, az) =>
      Qle_bool (align_lo ax l) (vx p) && Qle_bool (vx p) (align_hi ax l)
      && Qle_bool (align_lo ay w) (vy p) && Qle_bool (vy p) (align_hi ay w)
      && Qle_bool (align_lo az h) (vz p) && Qle_bool (vz p) (align_hi az h)
  | Cylinder r h (ax, ay, az) =>
      Qle_bool (sq (vx p - align_center ax r) + sq (vy p - align_center ay r))
               (sq r)
      && Qle_bool (align_lo az h) (vz p) && Qle_bool (vz p) (align_hi az h)
  | translate s' v => contains s' (vsub p v)
  | add a b => contains a p || contains b p
  | sub a b => contains a p && negb (contains b p)
  | fillet s' r es =>
      contains s' p && forallb (fun e => negb (fillet_cuts r e p)) es
  end.

(** The operands of the tree, in the order the script applies them: what
    was added to the running part and what was subtracted from it. *)
Fixpoint added (s : Part) : list Part :=
  match s with
  | add a b => added a ++ [b]
  | sub a _ => added a
  | _ => []
  end.

Fixpoint subtracted (s : Part) : list Part :=
  match s with
  | add a _ => subtracted a
  | sub a b => subtracted a ++ [b]
  | _ => []
  end.

End bd.

(* ================================================================== *)
(** ** The geometry recipe *)

Import bd.

Local Open Scope string_scope.

(** [hole_name in (...)] on a tuple of strings. *)
Definition str_in (s : string) (l : list string) : bool :=
  existsb (String.eqb s) l.

(** The plate before rounding: [_base_plate]. *)
Definition base_plate (pc104 : PC104Spec) (part_spec : StandSpec) : Part :=
  add Empty
      (translate
         (Box (box_width_x pc104) (box_height_y pc104)
              (base_plate_thickness part_spec) (MIN, MAX, MIN))
         (fst (box_top_left_coord pc104), snd (box_top_left_coord pc104), 0)).

(** The first operand of the loop body: the standoff cylinder. *)
Definition standoff_cylinder (part_spec : StandSpec) (hole_name : string)
    (hole_coord : coord) : Part :=
  translate
    (Cylinder
       ((if str_in hole_name ["NE"; "SE"]
         then standoff_od_east part_spec
         else standoff_od_west part_spec) / 2)
       (standoff_total_height part_spec)
       (CENTER, CENTER, MIN))
    (fst hole_coord, snd hole_coord, 0).

(** The second operand of the loop body: the cylinder that removes the hole. *)
Definition hole_cutter (part_spec : StandSpec) (hole_name : string)
    (hole_coord : coord) : Part :=
  translate
    (Cylinder (standoff_id part_spec / 2) 20 (CENTER, CENTER, MIN))
    (fst hole_coord, snd hole_coord,
     if negb (String.eqb hole_name "NW")
     then base_plate_thickness part_spec
     else -10).

(** The box that removes where the stack header goes. *)
Definition header_cutter (pc104 : PC104Spec) : Part :=
  translate
    (Box (inject_Z (pin_count_x pc104) * pin_pitch pc104 + 8)
         (inject_Z (pin_count_y pc104) * pin_pitch pc104 + 3)
         20 (CENTER, CENTER, MIN))
    (fst (stack_headers_center_coord pc104),
     snd (stack_headers_center_coord pc104), 0).

(** One pass of the [for] loop over [hole_coord_list.items()]. *)
Definition drill_step (part_spec : StandSpec) (p : Part)
    (item : string * coord) : Part :=
  let '(hole_name, hole_coord) := item in
  let p := add p (standoff_cylinder part_spec hole_name hole_coord) in
  sub p (hole_cutter part_spec hole_name hole_coord).

Definition make_pc104_standoff (pc104 : PC104Spec) (part_spec : StandSpec)
    : Part :=
  let p := Empty in
  let _base_plate := base_plate pc104 part_spec in
  let p :=
    add p (fillet _base_plate (plate_plate_corner_radius part_spec)
                  (filter_by Axis_Z (edges _base_plate))) in
  let p := fold_left (drill_step part_spec) (hole_coord_list pc104) p in
  let p := sub p (header_cutter pc104) in
  p.

(** The plate's footprint: the rectangle of size [box_width_x] by
    [box_height_y] whose top-left corner is [box_top_left_coord]. *)
Definition in_footprint (pc104 : PC104Spec) (p : Vector) : Prop :=
  fst (box_top_left_coord pc104) <= vx p
  /\ vx p <= fst (box_top_left_coord pc104) + box_width_x pc104
  /\ snd (box_top_left_coord pc104) - box_height_y pc104 <= vy p
  /\ vy p <= snd (box_top_left_coord pc104).

(** Points of the drilled column at a hole: within the hole radius of the
    hole's axis. *)
Definition in_hole_column (part_spec : StandSpec) (hole_coord : coord)
    (p : Vector) : Prop :=
  sq (vx p - fst hole_coord) + sq (vy p - snd hole_coord)
  <= sq (standoff_id part_spec / 2).

(* ================================================================== *)
(** ** The driver ([if __name__ == "__main__"]) *)

Inductive event : Type :=
| ev_show (part : Part)
| ev_info (msg : string)
| ev_mkdir (path : string) (exist_ok : bool)
| ev_warning (msg : string)
| ev_export_stl (part : Part) (path : string)
| ev_export_step (part : Part) (path : string).

(** What the surroundings answer during one run: the kernel's manifold
    check, and whether the file-system calls succeed. *)
Record world : Type := mkWorld {
  is_manifold : Part -> bool;
  mkdir_ok : bool;
  export_stl_ok : bool;
  export_step_ok : bool
}.

(** Commands: they extend the trace of calls and return or raise. *)
Definition cmd (A : Type) : Type := list event -> result A * list event.

Definition ret {A : Type} (a : A) : cmd A := fun t => (Ok a, t).

Definition seq {A B : Type} (m : cmd A) (k : A -> cmd B) : cmd B :=
  fun t =>
    match m t with
    | (Ok a, t') => k a t'
    | (Raise e, t') => (Raise e, t')
    end.

Notation "x <~ m ;; k" := (seq m (fun x => k))
  (at level 61, m at next level, right associativity).

Definition call (e : event) (ok : bool) (err : exn) : cmd unit :=
  fun t => (if ok then Ok tt else Raise err, (t ++ [e])%list).

Definition show (part : Part) : cmd Part :=
  _ <~ call (ev_show part) true (KernelError "show") ;; ret part.

Definition logger_info (msg : string) : cmd unit :=
  call (ev_info msg) true (OSError "log").

Definition logger_warning (msg : string) : cmd unit :=
  call (ev_warning msg) true (OSError "log").

Definition mkdir (w : world) (path : string) (exist_ok : bool) : cmd unit :=
  call (ev_mkdir path exist_ok) (mkdir_ok w) (OSError path).

(** [bd.export_stl] returns whether the file was written; a failed write
    is reported by [False], not by an exception. *)
Definition export_stl (w : world) (part : Part) (path : string) : cmd bool :=
  fun t => (Ok (export_stl_ok w), (t ++ [ev_export_stl part path])%list).

(** [bd.export_step] returns [True], and raises [RuntimeError] when the file
    could not be written. *)
Definition export_step (w : world) (part : Part) (path : string) : cmd bool :=
  fun t =>
    (if export_step_ok w
     then Ok true
     else Raise (RuntimeError "Failed to write STEP file"),
     (t ++ [ev_export_step part path])%list).

(** The body of [for name, part in parts.items()].  The [isinstance]
    assertion holds of every value of type [Part]; what the two exports
    return is dropped. *)
Definition export_part (w : world) (export_folder : string)
    (item : string * Part) : cmd unit :=
  let '(name, part) := item in
  _ <~ (if negb (is_manifold w part)
        then logger_warning ("Part '" ++ name ++ "' is not manifold")
        else ret tt) ;;
  _ <~ export_stl w part (export_folder ++ "/" ++ name ++ ".stl") ;;
  _ <~ export_step w part (export_folder ++ "/" ++ name ++ ".step") ;;
  ret tt.

Fixpoint for_each {A : Type} (f : A -> cmd unit) (l : list A) : cmd unit :=
  match l with
  | [] => ret tt
  | a :: l' => _ <~ f a ;; for_each f l'
  end.

(** The whole driver; [repo] is the directory above the script's own. *)
Definition main (w : world) (repo : string) : cmd unit :=
  part <~ show (make_pc104_standoff PC104Spec_default StandSpec_default) ;;
  let parts := [("pc104_standoff", part)] in
  _ <~ logger_info "Showing CAD model(s)" ;;
  let export_folder := repo ++ "/build" in
  _ <~ mkdir w export_folder true ;;
  for_each (export_part w export_folder) parts.

Definition run {A : Type} (m : cmd A) : result A * list event := m [].

Definition is_warning (e : event) : bool :=
  match e with ev_warning _ => true | _ => false end.

Definition is_export (e : event) : bool :=
  match e with
  | ev_export_stl _ _ | ev_export_step _ _ => true
  | _ => false
  end.

(** A world that differs from [w] in the manifold answer only. *)
Definition with_manifold (w : world) (m : bool) : world :=
  mkWorld (fun _ => m) (mkdir_ok w) (export_stl_ok w) (export_step_ok w).

Local Close Scope string_scope.

(* ================================================================== *)
(** ** Vocabulary for the properties *)

(** The part built from the default records, as the driver builds it. *)
Definition default_part : Part :=
  make_pc104_standoff PC104Spec_default StandSpec_default.

(** The rounded plate: the first thing added to the running part. *)
Definition rounded_plate (pc104 : PC104Spec) (part_spec : StandSpec) : Part :=
  fillet (base_plate pc104 part_spec) (plate_plate_corner_radius part_spec)
         (filter_by Axis_Z (edges (base_plate pc104 part_spec))).

(** The leaf a chain of [+=] and [-=] started from. *)
Fixpoint spine_base (s : Part) : Part :=
  match s with
  | add a _ => spine_base a
  | sub a _ => spine_base a
  | _ => s
  end.

(** Where the hole cutter of a corner starts on the z axis. *)
Definition cutter_base (part_spec : StandSpec) (hole_name : string) : Q :=
  if String.eqb hole_name "NW" then -10 else base_plate_thickness part_spec.

(** The cutter of a hole goes through everything at that hole: each point of
    the hole's column that the plate or the standoff occupies is a point of
    the cutter. *)
Definition cutter_covers_stack (pc104 : PC104Spec) (part_spec : StandSpec)
    (hole_name : string) (hole_coord : coord) : Prop :=
  forall p : Vector,
    in_hole_column part_spec hole_coord p ->
    contains (add (rounded_plate pc104 part_spec)
                  (standoff_cylinder part_spec hole_name hole_coord)) p = true ->
    contains (hole_cutter part_spec hole_name hole_coord) p = true.

(** No material is left in the column of a hole. *)
Definition hole_is_through (s : Part) (part_spec : StandSpec)
    (hole_coord : coord) : Prop :=
  forall p : Vector,
    in_hole_column part_spec hole_coord p -> contains s p = false.

(** The x and y sizes of the header clearance box. *)
Definition header_size_x (pc104 : PC104Spec) : Q :=
  inject_Z (pin_count_x pc104) * pin_pitch pc104 + 8.

Definition header_size_y (pc104 : PC104Spec) : Q :=
  inject_Z (pin_count_y pc104) * pin_pitch pc104 + 3.

(** The planar rectangle of the header clearance box. *)
Definition in_header_slot (pc104 : PC104Spec) (p : Vector) : Prop :=
  fst (stack_headers_center_coord pc104) - header_size_x pc104 / 2 <= vx p
  /\ vx p <= fst (stack_headers_center_coord pc104) + header_size_x pc104 / 2
  /\ snd (stack_headers_center_coord pc104) - header_size_y pc104 / 2 <= vy p
  /\ vy p <= snd (stack_headers_center_coord pc104) + header_size_y pc104 / 2.

(** [dataclasses.replace(self, pin_count_y=n)]. *)
Definition with_pin_count_y (self : PC104Spec) (n : Z) : PC104Spec :=
  mkPC104Spec (top_left_pin_coord self) (pin_count_x self) n (pin_pitch self)
              (box_width_x self) (box_height_y self) (box_top_left_coord self).

(** The two operands of a pass of the loop, by the item it is run on. *)
Definition item_standoff (part_spec : StandSpec) (item : string * coord)
    : Part :=
  standoff_cylinder part_spec (fst item) (snd item).

Definition item_cutter (part_spec : StandSpec) (item : string * coord)
    : Part :=
  hole_cutter part_spec (fst item) (snd item).

(** The point is in none of the hole cutters of the given items. *)
Definition clear_of (part_spec : StandSpec) (items : list (string * coord))
    (p : Vector) : Prop :=
  forall item, In item items -> contains (item_cutter part_spec item) p = false.

(** The outer radius the loop gives the standoff of a hole. *)
Definition standoff_radius (part_spec : StandSpec) (hole_name : string) : Q :=
  (if str_in hole_name ["NE"%string; "SE"%string]
   then standoff_od_east part_spec
   else standoff_od_west part_spec) / 2.

(** Every standoff, taken as the square around its disc, lies on the plate
    footprint. *)
Definition standoffs_fit (pc104 : PC104Spec) (part_spec : StandSpec) : Prop :=
  0 <= standoff_od_east part_spec
  /\ 0 <= standoff_od_west part_spec
  /\ forall item, In item (hole_coord_list pc104) ->
       fst (box_top_left_coord pc104)
       <= fst (snd item) - standoff_radius part_spec (fst item)
       /\ fst (snd item) + standoff_radius part_spec (fst item)
          <= fst (box_top_left_coord pc104) + box_width_x pc104
       /\ snd (box_top_left_coord pc104) - box_height_y pc104
          <= snd (snd item) - standoff_radius part_spec (fst item)
       /\ snd (snd item) + standoff_radius part_spec (fst item)
          <= snd (box_top_left_coord pc104).

(** Diameters are not negative, and a hole radius plus a standoff radius is
    less than 73.66, the least distance along an axis between two holes: no
    hole column meets the standoff of another hole. *)
Definition slim (part_spec : StandSpec) : Prop :=
  0 <= standoff_id part_spec
  /\ 0 <= standoff_od_east part_spec
  /\ 0 <= standoff_od_west part_spec
  /\ standoff_id part_spec / 2 + standoff_od_east part_spec / 2 < 73.66
  /\ standoff_id part_spec / 2 + standoff_od_west part_spec / 2 < 73.66.

(** The calls of a trace that a predicate selects, counted. *)
Definition count_calls (f : event -> bool) (t : list event) : nat :=
  List.length (filter f t).

Definition is_stl (e : event) : bool :=
  match e with ev_export_stl _ _ => true | _ => false end.

Definition is_step (e : event) : bool :=
  match e with ev_export_step _ _ => true | _ => false end.

(** The calls one pass of the export loop makes when nothing fails: the
    warning for a part that is not manifold, then the two exports. *)
Definition export_calls (w : world) (export_folder : string)
    (item : string * Part) : list event :=
  (if is_manifold w (snd item)
   then []
   else [ev_warning ("Part '" ++ fst item ++ "' is not manifold")%string])
  ++ [ ev_export_stl (snd item)
         (export_folder ++ "/" ++ fst item ++ ".stl")%string;
       ev_export_step (snd item)
         (export_folder ++ "/" ++ fst item ++ ".step")%string ].

(** The calls every run starts with. *)
Definition opening_calls (repo : string) : list event :=
  [ ev_show default_part;
    ev_info "Showing CAD model(s)";
    ev_mkdir (repo ++ "/build")%string true ].

(** Every box and cylinder the recipe hands to the kernel has positive
    sizes, and so has the fillet. *)
Definition proper (pc104 : PC104Spec) (part_spec : StandSpec) : Prop :=
  0 < box_width_x pc104
  /\ 0 < box_height_y pc104
  /\ 0 < header_size_x pc104
  /\ 0 < header_size_y pc104
  /\ 0 < base_plate_thickness part_spec
  /\ 0 < plate_plate_corner_radius part_spec
  /\ 0 < standoff_total_height part_spec
  /\ 0 < standoff_id part_spec
  /\ 0 < standoff_od_east part_spec
  /\ 0 < standoff_od_west part_spec.

(** Strictly closer to the axis of a hole than the hole radius. *)
Definition strictly_in_column (part_spec : StandSpec) (hole_coord : coord)
    (p : Vector) : Prop :=
  sq (vx p - fst hole_coord) + sq (vy p - snd hole_coord)
  < sq (standoff_id part_spec / 2).

(** Strictly inside the cutter of a hole: off its wall and off both ends. *)
Definition strictly_in_cutter (part_spec : StandSpec) (item : string * coord)
    (p : Vector) : Prop :=
  strictly_in_column part_spec (snd item) p
  /\ cutter_base part_spec (fst item) < vz p
  /\ vz p < cutter_base part_spec (fst item) + 20.

(** Strictly inside the header box. *)
Definition strictly_in_header (pc104 : PC104Spec) (p : Vector) : Prop :=
  fst (stack_headers_center_coord pc104) - header_size_x pc104 / 2 < vx p
  /\ vx p < fst (stack_headers_center_coord pc104) + header_size_x pc104 / 2
  /\ snd (stack_headers_center_coord pc104) - header_size_y pc104 / 2 < vy p
  /\ vy p < snd (stack_headers_center_coord pc104) + header_size_y pc104 / 2
  /\ 0 < vz p /\ vz p < 20.

(** A point on the wall of the standoff of a hole, 2.4 east of its axis:
    outside the bore, inside both outer radii of the default records. *)
Definition wall_point (hole_coord : coord) (z : Q) : Vector :=
  (fst hole_coord + 2.4, snd hole_coord, z).

(** A point of the plate away from holes, standoffs and header. *)
Definition plate_point (z : Q) : Vector := (40, 0, z).

#[local] Instance sq_proper : Proper (Qeq ==> Qeq) sq.
Proof. intros a b E; unfold sq; rewrite E; reflexivity. Qed.

(** Unfold the fields of the default records in a hypothesis or the goal. *)
Ltac defaults_in H :=
  cbn [PC104Spec_default StandSpec_default box_top_left_coord box_width_x
       box_height_y base_plate_thickness standoff_total_height standoff_id
       standoff_od_east standoff_od_west plate_plate_corner_radius
       pin_count_x pin_count_y pin_pitch top_left_pin_coord
       fst snd vx vy vz str_in existsb String.eqb Ascii.eqb Bool.eqb
       orb andb negb] in H.

Ltac defaults :=
  cbn [PC104Spec_default StandSpec_default box_top_left_coord box_width_x
       box_height_y base_plate_thickness standoff_total_height standoff_id
       standoff_od_east standoff_od_west plate_plate_corner_radius
       pin_count_x pin_count_y pin_pitch top_left_pin_coord
       fst snd vx vy vz str_in existsb String.eqb Ascii.eqb Bool.eqb
       orb andb negb].

(** Decide a comparison of two rational constants. *)
Ltac qconst := apply Qle_bool_iff; vm_compute; reflexivity.

(* ================================================================== *)
(** * Properties *)

(** ** The records *)

(** C1: for every [PC104Spec], [hole_coord_list] is the mapping with exactly
    the four keys NW, NE, SW, SE (in that order, without repetition) bound to
    (0,5.08), (85.73,7.62), (0,-68.58), (85.73,-72.39); the default record is
    one instance, and two records always give the same mapping. *)
Theorem hole_coord_list_four_corners :
  forall self : PC104Spec,
    hole_coord_list self
    = [ ("NW"%string, (0, 5.08)); ("NE"%string, (85.73, 7.62));
        ("SW"%string, (0, -68.58)); ("SE"%string, (85.73, -72.39)) ]
    /\ dict_keys (hole_coord_list self)
       = ["NW"%string; "NE"%string; "SW"%string; "SE"%string]
    /\ NoDup (dict_keys (hole_coord_list self))
    /\ dict_get (hole_coord_list self) "NW" = Some (0, 5.08)
    /\ dict_get (hole_coord_list self) "NE" = Some (85.73, 7.62)
    /\ dict_get (hole_coord_list self) "SW" = Some (0, -68.58)
    /\ dict_get (hole_coord_list self) "SE" = Some (85.73, -72.39)
    /\ hole_coord_list self = hole_coord_list PC104Spec_default
    /\ (forall other : PC104Spec,
          hole_coord_list self = hole_coord_list other).
Proof.
  intro self.
  repeat split; try reflexivity.
  unfold dict_keys, hole_coord_list; simpl.
  repeat constructor; simpl; intuition discriminate.
Qed.

(** C3: for the default record [stack_headers_center_coord] is
    (3.81, -31.75); for every record it is
    (top_left_pin_coord.x + (pin_count_x - 1) * pin_pitch / 2,
     top_left_pin_coord.y - (pin_count_y - 1) * pin_pitch / 2). *)
Theorem stack_headers_center_coord_value :
  coord_eq (stack_headers_center_coord PC104Spec_default) (3.81, -31.75)
  /\ forall self : PC104Spec,
       coord_eq (stack_headers_center_coord self)
         ( fst (top_left_pin_coord self)
           + (inject_Z (pin_count_x self) - 1) * pin_pitch self / 2,
           snd (top_left_pin_coord self)
           - (inject_Z (pin_count_y self) - 1) * pin_pitch self / 2 ).
Proof.
  split.
  - split; reflexivity.
  - intro self; unfold coord_eq, stack_headers_center_coord; simpl.
    unfold Z.sub; rewrite !inject_Z_plus; simpl inject_Z.
    split; field.
Qed.

(** In exact arithmetic: raising [pin_count_y] by one, every other field
    held fixed, moves the Y coordinate of [stack_headers_center_coord] by
    [- pin_pitch / 2] and leaves the X coordinate alone; raising it by [k]
    moves Y by [k] times that much. *)
Lemma stack_headers_center_coord_linear_in_pin_count_y :
  forall self : PC104Spec,
    snd (stack_headers_center_coord
           (with_pin_count_y self (pin_count_y self + 1)))
    == snd (stack_headers_center_coord self) + - pin_pitch self / 2
    /\ fst (stack_headers_center_coord
              (with_pin_count_y self (pin_count_y self + 1)))
       = fst (stack_headers_center_coord self)
    /\ forall k : Z,
         snd (stack_headers_center_coord
                (with_pin_count_y self (pin_count_y self + k)))
         == snd (stack_headers_center_coord self)
            + inject_Z k * (- pin_pitch self / 2).
Proof.
  intro self.
  assert (lin : forall k : Z,
             snd (stack_headers_center_coord
                    (with_pin_count_y self (pin_count_y self + k)))
             == snd (stack_headers_center_coord self)
                + inject_Z k * (- pin_pitch self / 2)).
  { intro k; unfold stack_headers_center_coord, with_pin_count_y; simpl.
    unfold Z.sub; rewrite !inject_Z_plus; simpl inject_Z. field. }
  split; [| split].
  - rewrite (lin 1%Z). simpl inject_Z. field.
  - reflexivity.
  - exact lin.
Qed.

(** In binary64 the default centre is the pair of floats 3.81 and -31.75. *)
Lemma b64_default_center :
  b64.stack_headers_center_coord b64.default_top_left_pin_coord
    b64.default_pin_count_x 26%Z b64.default_pin_pitch
  = Ok (b64.f_3_81, b64.f_minus_31_75).
Proof. vm_compute; reflexivity. Qed.




(** C8: building either record succeeds for all field values, and gives the
    record holding exactly those values; neither [__post_init__] checks
    anything, so a hole wider than both standoffs, or a negative plate
    thickness, is accepted. *)
Theorem spec_construction_never_fails :
  (forall tl pcx pcy pitch w h btl,
      PC104Spec_init tl pcx pcy pitch w h btl
      = Ok (mkPC104Spec tl pcx pcy pitch w h btl))
  /\ (forall t r sh id ode odw,
        StandSpec_init t r sh id ode odw = Ok (mkStandSpec t r sh id ode odw))
  /\ (forall self : PC104Spec, PC104Spec_post_init self = Ok tt)
  /\ (forall self : StandSpec, StandSpec_post_init self = Ok tt)
  /\ StandSpec_init (-2.0) 3.0 9.5 8 6.5 5.8
     = Ok (mkStandSpec (-2.0) 3.0 9.5 8 6.5 5.8).
Proof.
  repeat split.
Qed.

(* ================================================================== *)
(** ** Arithmetic and point-set lemmas *)

Lemma Qle_bool_false_iff (a b : Q) : Qle_bool a b = false <-> b < a.
Proof.
  split; intro H.
  - apply Qnot_le_lt; intro L; apply Qle_bool_iff in L; congruence.
  - destruct (Qle_bool a b) eqn:E; [| reflexivity].
    apply Qle_bool_iff in E; lra.
Qed.

Lemma Qdiv2 (y : Q) : y / 2 == y * (1 # 2).
Proof. reflexivity. Qed.

Lemma sq_nonneg (u : Q) : 0 <= sq u.
Proof.
  unfold sq; destruct (Qlt_le_dec u 0).
  - setoid_replace (u * u) with ((- u) * (- u)) by ring.
    apply Qmult_le_0_compat; lra.
  - apply Qmult_le_0_compat; lra.
Qed.

Lemma sq_bound (u r : Q) : 0 <= r -> sq u <= sq r -> - r <= u <= r.
Proof.
  unfold sq; intros Hr H; split.
  - destruct (Qlt_le_dec u (- r)) as [L | L]; [| exact L].
    assert (0 < (- r - u) * (r - u)) by (apply Qmult_lt_0_compat; lra).
    lra.
  - destruct (Qlt_le_dec r u) as [L | L]; [| exact L].
    assert (0 < (u - r) * (u + r)) by (apply Qmult_lt_0_compat; lra).
    lra.
Qed.

(** A disc lies in the square around it. *)
Lemma disc_in_square (x y cx cy r : Q) :
  0 <= r -> sq (x - cx) + sq (y - cy) <= sq r ->
  (cx - r <= x <= cx + r) /\ (cy - r <= y <= cy + r).
Proof.
  intros Hr H.
  pose proof (sq_nonneg (x - cx)) as Nx; pose proof (sq_nonneg (y - cy)) as Ny.
  assert (Bx : - r <= x - cx <= r) by (apply sq_bound; lra).
  assert (By : - r <= y - cy <= r) by (apply sq_bound; lra).
  repeat split; lra.
Qed.

Lemma contains_box (l w h : Q) (ax ay az : Align) (v p : Vector) :
  contains (translate (Box l w h (ax, ay, az)) v) p = true
  <-> (align_lo ax l + vx v <= vx p <= align_hi ax l + vx v)
      /\ (align_lo ay w + vy v <= vy p <= align_hi ay w + vy v)
      /\ (align_lo az h + vz v <= vz p <= align_hi az h + vz v).
Proof.
  destruct p as [[x y] z], v as [[a b] c]; cbn [contains vsub vx vy vz fst snd].
  rewrite !andb_true_iff, !Qle_bool_iff.
  split;
    [ intros [[[[[H1 H2] H3] H4] H5] H6]
    | intros [[H1 H2] [[H3 H4] [H5 H6]]] ];
    repeat split; lra.
Qed.

Lemma contains_cylinder (r h : Q) (v p : Vector) :
  contains (translate (Cylinder r h (CENTER, CENTER, MIN)) v) p = true
  <-> sq (vx p - vx v) + sq (vy p - vy v) <= sq r
      /\ vz v <= vz p <= vz v + h.
Proof.
  destruct p as [[x y] z], v as [[a b] c];
    cbn [contains vsub vx vy vz fst snd align_center align_lo].
  unfold align_hi, align_lo.
  rewrite !andb_true_iff, !Qle_bool_iff.
  assert (E : sq (x - a - 0) + sq (y - b - 0) == sq (x - a) + sq (y - b))
    by (unfold sq; ring).
  rewrite E; clear E.
  generalize (sq (x - a) + sq (y - b)) (sq r); intros d rr.
  split; [intros [[H1 H2] H3] | intros [H1 [H2 H3]]]; repeat split; lra.
Qed.

Lemma contains_fillet_sub (s : Part) (r : Q) (es : list Edge) (p : Vector) :
  contains (fillet s r es) p = true -> contains s p = true.
Proof. cbn [contains]; intro H; apply andb_true_iff in H; tauto. Qed.

(** A point of a chain of [+=] and [-=] is a point of its starting leaf or of
    one of the operands that were added. *)
Lemma contains_added (s : Part) (p : Vector) :
  contains s p = true ->
  contains (spine_base s) p = true
  \/ exists a, In a (added s) /\ contains a p = true.
Proof.
  induction s; cbn [spine_base added]; try (left; assumption).
  - cbn [contains]; intro H; apply orb_true_iff in H; destruct H as [H | H].
    + destruct (IHs1 H) as [B | [a [I C]]]; [left; exact B |].
      right; exists a; split; [apply in_or_app; left; exact I | exact C].
    + right; exists s2; split;
        [apply in_or_app; right; left; reflexivity | exact H].
  - cbn [contains]; intro H; apply andb_true_iff in H; destruct H as [H _].
    exact (IHs1 H).
Qed.

(** The plate, then the four standoffs, are what the recipe adds. *)
Lemma added_make (pc104 : PC104Spec) (part_spec : StandSpec) :
  added (make_pc104_standoff pc104 part_spec)
  = [ rounded_plate pc104 part_spec;
      standoff_cylinder part_spec "NW" (0, 5.08);
      standoff_cylinder part_spec "NE" (85.73, 7.62);
      standoff_cylinder part_spec "SW" (0, -68.58);
      standoff_cylinder part_spec "SE" (85.73, -72.39) ].
Proof. reflexivity. Qed.

(** The four hole cutters, then the header box, are what it subtracts. *)
Lemma subtracted_make (pc104 : PC104Spec) (part_spec : StandSpec) :
  subtracted (make_pc104_standoff pc104 part_spec)
  = [ hole_cutter part_spec "NW" (0, 5.08);
      hole_cutter part_spec "NE" (85.73, 7.62);
      hole_cutter part_spec "SW" (0, -68.58);
      hole_cutter part_spec "SE" (85.73, -72.39);
      header_cutter pc104 ].
Proof. reflexivity. Qed.

Lemma plate_extent (pc104 : PC104Spec) (part_spec : StandSpec) (p : Vector) :
  contains (base_plate pc104 part_spec) p = true ->
  in_footprint pc104 p /\ 0 <= vz p <= base_plate_thickness part_spec.
Proof.
  unfold base_plate; cbn [contains]; rewrite orb_false_l; intro C.
  apply contains_box in C; unfold align_hi, align_lo in C.
  cbn [vx vy vz fst snd] in C; unfold in_footprint.
  destruct C as [[H1 H2] [[H3 H4] [H5 H6]]]; repeat split; lra.
Qed.

Lemma standoff_extent (part_spec : StandSpec) (name : string) (c : coord)
    (p : Vector) :
  contains (standoff_cylinder part_spec name c) p = true ->
  0 <= vz p <= standoff_total_height part_spec.
Proof.
  unfold standoff_cylinder; intro C; apply contains_cylinder in C.
  cbn [vx vy vz fst snd] in C; destruct C as [_ [H1 H2]]; split; lra.
Qed.

(** ** Bounds of the default part *)

Ltac standoff_in_bounds C :=
  let D := fresh "D" in
  let Z1 := fresh "Z" in
  let Z2 := fresh "Z" in
  unfold standoff_cylinder in C; apply contains_cylinder in C;
  defaults_in C; destruct C as [D [Z1 Z2]];
  apply disc_in_square in D; [| qconst];
  rewrite !Qdiv2 in D; repeat split; lra.

Lemma added_in_bounds (a : Part) (p : Vector) :
  In a (added default_part) -> contains a p = true ->
  in_footprint PC104Spec_default p
  /\ 0 <= vz p <= standoff_total_height StandSpec_default.
Proof.
  unfold default_part; rewrite added_make; intros I C.
  destruct I as [E | [E | [E | [E | [E | []]]]]]; subst a.
  - apply contains_fillet_sub, plate_extent in C.
    destruct C as [F [Z1 Z2]]; split; [exact F |].
    defaults_in Z2; defaults; split; lra.
  - unfold in_footprint; defaults; standoff_in_bounds C.
  - unfold in_footprint; defaults; standoff_in_bounds C.
  - unfold in_footprint; defaults; standoff_in_bounds C.
  - unfold in_footprint; defaults; standoff_in_bounds C.
Qed.

Lemma default_part_in_bounds (p : Vector) :
  contains default_part p = true ->
  in_footprint PC104Spec_default p
  /\ 0 <= vz p <= standoff_total_height StandSpec_default.
Proof.
  intro C; destruct (contains_added _ _ C) as [B | [a [I Ca]]].
  - discriminate B.
  - exact (added_in_bounds a p I Ca).
Qed.

(* ================================================================== *)
(** ** The recipe *)

(** C4: the standoff cylinder added at a hole has outer radius
    [standoff_od_east / 2] at NE and SE and [standoff_od_west / 2] at NW and
    SW, for every pair of records; these four cylinders (after the plate) are
    all the recipe adds. *)
Theorem standoff_radius_by_side :
  forall (pc104 : PC104Spec) (part_spec : StandSpec),
    map (fun item => (fst item,
                      standoff_cylinder part_spec (fst item) (snd item)))
        (hole_coord_list pc104)
    = [ ("NW"%string,
         translate (Cylinder (standoff_od_west part_spec / 2)
                             (standoff_total_height part_spec)
                             (CENTER, CENTER, MIN)) (0, 5.08, 0));
        ("NE"%string,
         translate (Cylinder (standoff_od_east part_spec / 2)
                             (standoff_total_height part_spec)
                             (CENTER, CENTER, MIN)) (85.73, 7.62, 0));
        ("SW"%string,
         translate (Cylinder (standoff_od_west part_spec / 2)
                             (standoff_total_height part_spec)
                             (CENTER, CENTER, MIN)) (0, -68.58, 0));
        ("SE"%string,
         translate (Cylinder (standoff_od_east part_spec / 2)
                             (standoff_total_height part_spec)
                             (CENTER, CENTER, MIN)) (85.73, -72.39, 0)) ]
    /\ added (make_pc104_standoff pc104 part_spec)
       = rounded_plate pc104 part_spec
         :: map (fun item => standoff_cylinder part_spec (fst item) (snd item))
                (hole_coord_list pc104).
Proof.
  intros pc104 part_spec; split; reflexivity.
Qed.

Lemma contains_header_cutter (pc104 : PC104Spec) (p : Vector) :
  contains (header_cutter pc104) p = true
  <-> in_header_slot pc104 p /\ 0 <= vz p <= 20.
Proof.
  unfold header_cutter; rewrite contains_box.
  unfold in_header_slot, header_size_x, header_size_y, align_hi, align_lo.
  cbn [vx vy vz fst snd]; rewrite !Qdiv2.
  generalize (inject_Z (pin_count_x pc104) * pin_pitch pc104)
             (inject_Z (pin_count_y pc104) * pin_pitch pc104)
             (fst (stack_headers_center_coord pc104))
             (snd (stack_headers_center_coord pc104)).
  intros a b cx cy.
  split;
    [ intros [[H1 H2] [[H3 H4] [H5 H6]]]
    | intros [[H1 [H2 [H3 H4]]] [H5 H6]] ];
    repeat split; lra.
Qed.

(** The last operand the recipe subtracts stays subtracted. *)
Lemma make_minus_header (pc104 : PC104Spec) (part_spec : StandSpec)
    (p : Vector) :
  contains (make_pc104_standoff pc104 part_spec) p = true ->
  contains (header_cutter pc104) p = false.
Proof.
  unfold make_pc104_standoff; cbn [contains]; intro C.
  apply andb_true_iff in C; destruct C as [_ C].
  apply negb_true_iff in C; exact C.
Qed.

(** C5: the last thing subtracted is the header clearance box: x size
    [pin_count_x * pin_pitch + 8], y size [pin_count_y * pin_pitch + 3],
    height 20, centred in x and y on [stack_headers_center_coord] and
    standing on z = 0, so its points are those of the slot rectangle with
    z from 0 to 20; for the default records nothing of the part is left
    anywhere over that rectangle. *)
Theorem header_clearance_box :
  forall (pc104 : PC104Spec) (part_spec : StandSpec),
    last (subtracted (make_pc104_standoff pc104 part_spec)) Empty
    = translate
        (Box (inject_Z (pin_count_x pc104) * pin_pitch pc104 + 8)
             (inject_Z (pin_count_y pc104) * pin_pitch pc104 + 3)
             20 (CENTER, CENTER, MIN))
        (fst (stack_headers_center_coord pc104),
         snd (stack_headers_center_coord pc104), 0)
    /\ (forall p : Vector,
          contains (header_cutter pc104) p = true
          <-> in_header_slot pc104 p /\ 0 <= vz p <= 20)
    /\ (forall p : Vector,
          in_header_slot pc104 p -> 0 <= vz p <= 20 ->
          contains (make_pc104_standoff pc104 part_spec) p = false)
    /\ (forall p : Vector,
          in_header_slot PC104Spec_default p ->
          contains default_part p = false).
Proof.
  intros pc104 part_spec; split; [reflexivity | split; [| split]].
  - intro p; apply contains_header_cutter.
  - intros p S Zr.
    destruct (contains (make_pc104_standoff pc104 part_spec) p) eqn:C;
      [| reflexivity].
    apply make_minus_header in C.
    assert (T : contains (header_cutter pc104) p = true)
      by (apply contains_header_cutter; split; assumption).
    congruence.
  - intros p S.
    destruct (contains default_part p) eqn:C; [| reflexivity].
    pose proof (default_part_in_bounds p C) as [_ [Z1 Z2]].
    apply make_minus_header in C.
    assert (T : contains (header_cutter PC104Spec_default) p = true).
    { apply contains_header_cutter; split; [exact S |].
      defaults_in Z2; split; lra. }
    congruence.
Qed.

(** C5, at a point of the default plate under the header: (3.81, -31.75, 1)
    lies in the slot rectangle and is not part of the solid. *)
Lemma header_clearance_box_witness :
  in_header_slot PC104Spec_default (3.81, -31.75, 1)
  /\ contains default_part (3.81, -31.75, 1) = false.
Proof.
  assert (S : in_header_slot PC104Spec_default (3.81, -31.75, 1))
    by (vm_compute; repeat split; discriminate).
  split; [exact S |].
  exact (proj2 (proj2 (proj2
           (header_clearance_box PC104Spec_default StandSpec_default)))
           (3.81, -31.75, 1) S).
Defined.

(** C7: for the default records every primitive the recipe adds (the plate
    and the four standoff cylinders), and so the returned solid, lies inside
    the rectangle of size [box_width_x] by [box_height_y] anchored at
    [box_top_left_coord], with z from 0 to [standoff_total_height] = 9.5,
    which is no more than plate thickness plus standoff height. *)
Theorem default_part_within_footprint :
  forall (s : Part) (p : Vector),
    s = default_part \/ In s (added default_part) ->
    contains s p = true ->
    in_footprint PC104Spec_default p
    /\ 0 <= vz p <= 9.5
    /\ vz p <= base_plate_thickness StandSpec_default
               + standoff_total_height StandSpec_default.
Proof.
  intros s p [E | I] C.
  - subst s; destruct (default_part_in_bounds p C) as [F [Z1 Z2]].
    defaults_in Z2; defaults; split; [exact F | split; [split; lra | lra]].
  - destruct (added_in_bounds s p I C) as [F [Z1 Z2]].
    defaults_in Z2; defaults; split; [exact F | split; [split; lra | lra]].
Qed.

(** C7, at the rim of the NE standoff, where z reaches 9.5. *)
Lemma default_part_within_footprint_witness :
  contains default_part (88.23, 7.62, 9.5) = true
  /\ in_footprint PC104Spec_default (88.23, 7.62, 9.5)
  /\ 0 <= vz (88.23, 7.62, 9.5) <= 9.5
  /\ vz (88.23, 7.62, 9.5) <= base_plate_thickness StandSpec_default
                               + standoff_total_height StandSpec_default.
Proof.
  split; [vm_compute; reflexivity |].
  apply (default_part_within_footprint default_part (88.23, 7.62, 9.5)).
  - left; reflexivity.
  - vm_compute; reflexivity.
Defined.

(* ================================================================== *)
(** ** The mounting holes *)

Lemma contains_hole_cutter (part_spec : StandSpec) (name : string) (c : coord)
    (p : Vector) :
  contains (hole_cutter part_spec name c) p = true
  <-> in_hole_column part_spec c p
      /\ cutter_base part_spec name <= vz p <= cutter_base part_spec name + 20.
Proof.
  unfold hole_cutter, cutter_base, in_hole_column; rewrite contains_cylinder.
  cbn [vx vy vz fst snd].
  destruct (String.eqb name "NW"); cbn [negb]; reflexivity.
Qed.

(** Membership in the built part, operand by operand. *)
Lemma contains_make (pc104 : PC104Spec) (part_spec : StandSpec) (p : Vector) :
  contains (make_pc104_standoff pc104 part_spec) p
  = ((((((((contains (rounded_plate pc104 part_spec) p
             || contains (standoff_cylinder part_spec "NW" (0, 5.08)) p)
            && negb (contains (hole_cutter part_spec "NW" (0, 5.08)) p))
           || contains (standoff_cylinder part_spec "NE" (85.73, 7.62)) p)
          && negb (contains (hole_cutter part_spec "NE" (85.73, 7.62)) p))
         || contains (standoff_cylinder part_spec "SW" (0, -68.58)) p)
        && negb (contains (hole_cutter part_spec "SW" (0, -68.58)) p))
       || contains (standoff_cylinder part_spec "SE" (85.73, -72.39)) p)
      && negb (contains (hole_cutter part_spec "SE" (85.73, -72.39)) p))
     && negb (contains (header_cutter pc104) p).
Proof. reflexivity. Qed.

(** Split a membership fact of the built part into its cases. *)
Ltac peel :=
  repeat match goal with
  | H : _ && _ = true |- _ => apply andb_true_iff in H; destruct H
  | H : _ || _ = true |- _ => apply orb_true_iff in H; destruct H
  | H : negb _ = true |- _ => apply negb_true_iff in H
  end.

(** A point of a hole's column is in no standoff that stands elsewhere. *)
Ltac far_standoff Col :=
  match goal with
  | C : contains (standoff_cylinder _ _ _) _ = true |- _ =>
      let D := fresh "D" in
      let Col' := fresh "Col" in
      pose proof Col as Col';
      unfold in_hole_column in Col'; defaults_in Col';
      unfold standoff_cylinder in C; apply contains_cylinder in C;
      defaults_in C; destruct C as [D _];
      apply disc_in_square in D; [| qconst];
      apply disc_in_square in Col'; [| qconst];
      rewrite !Qdiv2 in D; rewrite !Qdiv2 in Col'; exfalso; lra
  end.

(** Close a case in which the point lies in the column and in the z range
    of the hole's own cutter, and is yet said to be outside that cutter. *)
Ltac own_cutter :=
  match goal with
  | Col : in_hole_column _ ?c ?p,
    H : contains (hole_cutter _ ?n ?c) ?p = false |- _ =>
      let T := fresh "T" in
      assert (T : contains (hole_cutter StandSpec_default n c) p = true)
        by (apply contains_hole_cutter; split;
            [ exact Col | unfold cutter_base; defaults; split; lra ]);
      congruence
  end.

(** The NW hole of the default part is open from end to end. *)
Lemma NW_hole_through :
  hole_is_through default_part StandSpec_default (0, 5.08).
Proof.
  intros p Col.
  destruct (contains default_part p) eqn:C; [exfalso | reflexivity].
  pose proof (default_part_in_bounds p C) as [_ [Z1 Z2]]; defaults_in Z2.
  unfold default_part in C; rewrite contains_make in C; peel.
  all: try far_standoff Col.
  all: own_cutter.
Qed.

Lemma NW_cutter_covers :
  cutter_covers_stack PC104Spec_default StandSpec_default "NW" (0, 5.08).
Proof.
  intros p Col C; cbn [contains] in C.
  apply contains_hole_cutter; split; [exact Col |].
  unfold cutter_base; defaults.
  apply orb_true_iff in C; destruct C as [C | C].
  - apply andb_true_iff in C; destruct C as [C _].
    apply plate_extent in C; destruct C as [_ [Z1 Z2]].
    defaults_in Z2; split; lra.
  - apply standoff_extent in C; destruct C as [Z1 Z2].
    defaults_in Z2; split; lra.
Qed.

(** At the other three holes of the default part nothing is left in the
    column from the plate surface upward. *)
Lemma blind_hole_above_plate (name : string) (c : coord) (p : Vector) :
  In (name, c) [("NE"%string, (85.73, 7.62)); ("SW"%string, (0, -68.58));
                ("SE"%string, (85.73, -72.39))] ->
  in_hole_column StandSpec_default c p ->
  contains default_part p = true ->
  0 <= vz p /\ vz p < base_plate_thickness StandSpec_default.
Proof.
  intros I Col C.
  pose proof (default_part_in_bounds p C) as [_ [Z1 Z2]]; defaults_in Z2.
  split; [exact Z1 |]; defaults.
  destruct (Qlt_le_dec (vz p) 2.0) as [L | L]; [exact L | exfalso].
  unfold default_part in C; rewrite contains_make in C.
  destruct I as [E | [E | [E | []]]]; inversion E; subst name c; clear E.
  all: peel.
  all: try far_standoff Col.
  all: own_cutter.
Qed.

Lemma fillet_cuts_far_x (r : Q) (e : Edge) (p : Vector) :
  Qle_bool r (Qabs_ (vx p - vx (e_start e))) = true ->
  fillet_cuts r e p = false.
Proof.
  intro F; unfold fillet_cuts, Qlt_bool; rewrite F; cbn [negb].
  rewrite andb_false_r; reflexivity.
Qed.

(** The point [(x, y, z)], [z] below the default plate surface, is outside a
    given hole cutter: below its base, or off its column. *)
Ltac outside_cutter :=
  match goal with
  | |- contains (hole_cutter _ _ _) _ = false =>
      let T := fresh "T" in
      let Col := fresh "Col" in
      let B1 := fresh "B" in
      let B2 := fresh "B" in
      match goal with
      | |- ?b = false => destruct b eqn:T; [exfalso | reflexivity]
      end;
      apply contains_hole_cutter in T; destruct T as [Col [B1 B2]];
      first
        [ unfold cutter_base in B1; defaults_in B1; lra
        | unfold in_hole_column in Col; defaults_in Col;
          apply Qle_bool_iff in Col; vm_compute in Col; discriminate Col ]
  end.

(** The point is outside the header slot: one side of the rectangle fails. *)
Ltac outside_header :=
  match goal with
  | |- contains (header_cutter _) _ = false =>
      let T := fresh "T" in
      let S1 := fresh "S" in
      let S2 := fresh "S" in
      let S3 := fresh "S" in
      let S4 := fresh "S" in
      match goal with
      | |- ?b = false => destruct b eqn:T; [exfalso | reflexivity]
      end;
      apply contains_header_cutter in T;
      destruct T as [[S1 [S2 [S3 S4]]] _];
      first
        [ apply Qle_bool_iff in S1; vm_compute in S1; discriminate S1
        | apply Qle_bool_iff in S2; vm_compute in S2; discriminate S2
        | apply Qle_bool_iff in S3; vm_compute in S3; discriminate S3
        | apply Qle_bool_iff in S4; vm_compute in S4; discriminate S4 ]
  end.

(** The point [(x, y, z)] with [0 <= z < 2], clear of the rounded corners, is
    in the default rounded plate. *)
Ltac inside_plate :=
  unfold rounded_plate; cbn [contains]; apply andb_true_iff; split;
  [ unfold base_plate; cbn [contains]; rewrite orb_false_l;
    apply contains_box; unfold align_hi, align_lo; defaults;
    repeat split; lra
  | let es := eval vm_compute in
        (filter_by Axis_Z
           (edges (base_plate PC104Spec_default StandSpec_default))) in
    change (filter_by Axis_Z
              (edges (base_plate PC104Spec_default StandSpec_default)))
      with es;
    cbn [forallb];
    rewrite !fillet_cuts_far_x by (vm_compute; reflexivity);
    reflexivity ].

(** ... while the plate under them is left whole along the hole's axis. *)
Lemma plate_left_under_standoff (name : string) (c : coord) (z : Q) :
  In (name, c) [("NE"%string, (85.73, 7.62)); ("SW"%string, (0, -68.58));
                ("SE"%string, (85.73, -72.39))] ->
  0 <= z -> z < base_plate_thickness StandSpec_default ->
  contains default_part (fst c, snd c, z) = true.
Proof.
  intros I Z1 Z2; defaults_in Z2.
  unfold default_part; rewrite contains_make.
  destruct I as [E | [E | [E | []]]]; inversion E; subst name c; clear E;
    cbn [fst snd].
  all: match goal with
       | |- context [contains (rounded_plate ?a ?b) ?q] =>
           assert (Pl : contains (rounded_plate a b) q = true)
             by inside_plate;
           assert (H1 : contains (hole_cutter b "NW" (0, 5.08)) q = false)
             by outside_cutter;
           assert (H2 : contains (hole_cutter b "NE" (85.73, 7.62)) q = false)
             by outside_cutter;
           assert (H3 : contains (hole_cutter b "SW" (0, -68.58)) q = false)
             by outside_cutter;
           assert (H4 : contains (hole_cutter b "SE" (85.73, -72.39)) q
                        = false)
             by outside_cutter;
           assert (H5 : contains (header_cutter a) q = false)
             by outside_header;
           rewrite Pl, H1, H2, H3, H4, H5; reflexivity
       end.
Qed.

(** C2, as stated, fails: the cutters do not all go through everything at
    their hole.  At NE the point (85.73, 7.62, 1) of the hole's axis is in
    the plate, is not in the NE cutter (which starts at z = 2), and is still
    in the finished part. *)
Lemma hole_cutters_do_not_all_penetrate :
  ~ (forall (hole_name : string) (hole_coord : coord),
        In (hole_name, hole_coord) (hole_coord_list PC104Spec_default) ->
        cutter_covers_stack PC104Spec_default StandSpec_default
                            hole_name hole_coord)
  /\ ~ hole_is_through default_part StandSpec_default (85.73, 7.62).
Proof.
  assert (Col : in_hole_column StandSpec_default (85.73, 7.62)
                               (85.73, 7.62, 1))
    by (unfold in_hole_column; qconst).
  split.
  - intro A.
    assert (I : In ("NE"%string, (85.73, 7.62))
                   (hole_coord_list PC104Spec_default))
      by (right; left; reflexivity).
    specialize (A "NE"%string (85.73, 7.62) I (85.73, 7.62, 1) Col).
    vm_compute in A.
    specialize (A eq_refl); discriminate A.
  - intro T; specialize (T (85.73, 7.62, 1) Col).
    vm_compute in T; discriminate T.
Qed.

(** C2, amended: at each of the four holes the recipe subtracts a cylinder of
    radius [standoff_id / 2] and length 20 on the hole's axis, based at
    z = -10 for NW and at z = [base_plate_thickness] for NE, SW and SE; its
    points are those of the hole's column with z from the base to the base
    plus 20.  For the default records the NW cutter goes through plate and
    standoff and leaves the NW column empty; at the other three holes the
    column is emptied from the plate surface upward only, and the plate below
    is left whole along the hole's axis. *)
Theorem hole_cutters_reach :
  forall (pc104 : PC104Spec) (part_spec : StandSpec),
    subtracted (make_pc104_standoff pc104 part_spec)
    = [ translate (Cylinder (standoff_id part_spec / 2) 20
                            (CENTER, CENTER, MIN))
                  (0, 5.08, -10);
        translate (Cylinder (standoff_id part_spec / 2) 20
                            (CENTER, CENTER, MIN))
                  (85.73, 7.62, base_plate_thickness part_spec);
        translate (Cylinder (standoff_id part_spec / 2) 20
                            (CENTER, CENTER, MIN))
                  (0, -68.58, base_plate_thickness part_spec);
        translate (Cylinder (standoff_id part_spec / 2) 20
                            (CENTER, CENTER, MIN))
                  (85.73, -72.39, base_plate_thickness part_spec);
        header_cutter pc104 ]
    /\ (forall (hole_name : string) (hole_coord : coord) (p : Vector),
          contains (hole_cutter part_spec hole_name hole_coord) p = true
          <-> in_hole_column part_spec hole_coord p
              /\ cutter_base part_spec hole_name <= vz p
                 <= cutter_base part_spec hole_name + 20)
    /\ cutter_covers_stack PC104Spec_default StandSpec_default "NW" (0, 5.08)
    /\ hole_is_through default_part StandSpec_default (0, 5.08)
    /\ (forall (hole_name : string) (hole_coord : coord),
          In (hole_name, hole_coord)
             [ ("NE"%string, (85.73, 7.62)); ("SW"%string, (0, -68.58));
               ("SE"%string, (85.73, -72.39)) ] ->
          (forall p : Vector,
              in_hole_column StandSpec_default hole_coord p ->
              contains default_part p = true ->
              0 <= vz p /\ vz p < base_plate_thickness StandSpec_default)
          /\ (forall z : Q,
                0 <= z -> z < base_plate_thickness StandSpec_default ->
                contains default_part (fst hole_coord, snd hole_coord, z)
                = true)).
Proof.
  intros pc104 part_spec.
  split; [reflexivity | split; [| split; [| split; [| ]]]].
  - intros; apply contains_hole_cutter.
  - exact NW_cutter_covers.
  - exact NW_hole_through.
  - intros hole_name hole_coord I; split.
    + intros p; apply (blind_hole_above_plate hole_name hole_coord p I).
    + intros z; apply (plate_left_under_standoff hole_name hole_coord z I).
Qed.

(** C2 amended, at the SE hole: the axis point at z = 1 is still there, and
    a point of the finished part in that column lies below the plate
    surface. *)
Lemma hole_cutters_reach_witness :
  In ("SE"%string, (85.73, -72.39))
     [ ("NE"%string, (85.73, 7.62)); ("SW"%string, (0, -68.58));
       ("SE"%string, (85.73, -72.39)) ]
  /\ contains default_part (85.73, -72.39, 1) = true
  /\ 0 <= vz (85.73, -72.39, 1)
  /\ vz (85.73, -72.39, 1) < base_plate_thickness StandSpec_default.
Proof.
  assert (I : In ("SE"%string, (85.73, -72.39))
                 [ ("NE"%string, (85.73, 7.62)); ("SW"%string, (0, -68.58));
                   ("SE"%string, (85.73, -72.39)) ])
    by (right; right; left; reflexivity).
  assert (Z1 : 0 <= 1) by (vm_compute; discriminate).
  assert (Z2 : 1 < base_plate_thickness StandSpec_default)
    by (vm_compute; reflexivity).
  pose proof
    (proj2 (proj2 (proj2 (proj2
       (hole_cutters_reach PC104Spec_default StandSpec_default))))
       "SE"%string (85.73, -72.39) I) as [Above Below].
  assert (C : contains default_part (85.73, -72.39, 1) = true)
    by (exact (Below 1 Z1 Z2)).
  split; [exact I | split; [exact C |]].
  apply (Above (85.73, -72.39, 1)); [| exact C].
  unfold in_hole_column; qconst.
Defined.

(* ================================================================== *)
(** ** Where the standoffs stand *)

Lemma fillet_cuts_far_y (r : Q) (e : Edge) (p : Vector) :
  Qle_bool r (Qabs_ (vy p - vy (e_start e))) = true ->
  fillet_cuts r e p = false.
Proof.
  intro F; unfold fillet_cuts, Qlt_bool; rewrite F; cbn [negb].
  rewrite andb_false_r; reflexivity.
Qed.

(** The point, whose x and y are constants clear of the rounded corners and
    whose z is between the faces of the default plate, is in it. *)
Ltac inside_default_plate :=
  unfold rounded_plate; cbn [contains]; apply andb_true_iff; split;
  [ unfold base_plate; cbn [contains]; rewrite orb_false_l;
    apply contains_box; unfold align_hi, align_lo; defaults;
    repeat split; lra
  | let es := eval vm_compute in
        (filter_by Axis_Z
           (edges (base_plate PC104Spec_default StandSpec_default))) in
    change (filter_by Axis_Z
              (edges (base_plate PC104Spec_default StandSpec_default)))
      with es;
    cbn [forallb];
    repeat first
      [ rewrite fillet_cuts_far_x by (vm_compute; reflexivity)
      | rewrite fillet_cuts_far_y by (vm_compute; reflexivity) ];
    reflexivity ].

(** The point, with constant x and y, is in the default standoff named. *)
Ltac inside_standoff :=
  unfold standoff_cylinder; apply contains_cylinder; defaults;
  split; [qconst | split; lra].

(** The point, with constant x and y, is in no default standoff. *)
Ltac outside_standoffs :=
  match goal with
  | C : contains (standoff_cylinder _ _ _) _ = true |- _ =>
      let D := fresh "D" in
      unfold standoff_cylinder in C; apply contains_cylinder in C;
      defaults_in C; destruct C as [D _];
      apply Qle_bool_iff in D; vm_compute in D; discriminate D
  end.

(** Settle membership in the default part of a point with constant x and y
    that lies in the operand [own] and in no cutter. *)
Ltac in_default_part own :=
  unfold default_part; rewrite contains_make;
  match goal with
  | |- context [contains (rounded_plate ?a ?b) ?q] =>
      let Own := fresh "Own" in
      let H1 := fresh "H" in
      let H2 := fresh "H" in
      let H3 := fresh "H" in
      let H4 := fresh "H" in
      let H5 := fresh "H" in
      assert (Own : contains own q = true)
        by first [inside_default_plate | inside_standoff];
      assert (H1 : contains (hole_cutter b "NW" (0, 5.08)) q = false)
        by outside_cutter;
      assert (H2 : contains (hole_cutter b "NE" (85.73, 7.62)) q = false)
        by outside_cutter;
      assert (H3 : contains (hole_cutter b "SW" (0, -68.58)) q = false)
        by outside_cutter;
      assert (H4 : contains (hole_cutter b "SE" (85.73, -72.39)) q = false)
        by outside_cutter;
      assert (H5 : contains (header_cutter a) q = false)
        by outside_header;
      rewrite Own, H1, H2, H3, H4, H5;
      repeat match goal with
             | |- context [contains ?s ?q'] => destruct (contains s q')
             end;
      reflexivity
  end.

(** In the default part the plate, away from the standoffs, fills z from 0
    to the plate thickness and nothing else. *)
Lemma default_plate_span (z : Q) :
  contains default_part (plate_point z) = true
  <-> 0 <= z <= base_plate_thickness StandSpec_default.
Proof.
  unfold plate_point; defaults; split.
  - intro C; unfold default_part in C; rewrite contains_make in C; peel.
    all: try outside_standoffs.
    match goal with
    | Pl : contains (rounded_plate _ _) _ = true |- _ =>
        apply contains_fillet_sub, plate_extent in Pl;
        destruct Pl as [_ [Z1 Z2]]; defaults_in Z2; cbn [vz snd] in Z1;
        split; lra
    end.
  - intros [Z1 Z2].
    in_default_part (rounded_plate PC104Spec_default StandSpec_default).
Qed.

(** In the default part the wall of each standoff fills z from 0 to the
    standoff height and nothing else. *)
Lemma default_wall_span (item : string * coord) (z : Q) :
  In item (hole_coord_list PC104Spec_default) ->
  contains default_part (wall_point (snd item) z) = true
  <-> 0 <= z <= standoff_total_height StandSpec_default.
Proof.
  intro I; split.
  - intro C; apply default_part_in_bounds in C.
    destruct C as [_ ZZ]; exact ZZ.
  - intros [Z1 Z2]; defaults_in Z2.
    destruct I as [E | [E | [E | [E | []]]]]; subst item;
      unfold wall_point; cbn [fst snd].
    + in_default_part (standoff_cylinder StandSpec_default "NW" (0, 5.08)).
    + in_default_part (standoff_cylinder StandSpec_default "NE" (85.73, 7.62)).
    + in_default_part (standoff_cylinder StandSpec_default "SW" (0, -68.58)).
    + in_default_part
        (standoff_cylinder StandSpec_default "SE" (85.73, -72.39)).
Qed.

(** C10: every standoff cylinder the recipe adds is aligned MIN in z and
    moved by 0, so it sits on z = 0, the bottom face of the plate, and spans
    z from 0 to [standoff_total_height]: all its points have z in that range
    and its axis reaches both ends.  In the part built from the default
    records the plate, away from the standoffs, fills z from 0 to
    [base_plate_thickness] = 2 and each standoff wall fills z from 0 to
    [standoff_total_height] = 9.5, so a standoff stands above the plate
    surface exactly for 2 < z <= 2 + 7.5: by 7.5, not by 9.5. *)
Theorem standoff_height_measured_from_plate_bottom :
  forall (pc104 : PC104Spec) (part_spec : StandSpec) (hole_name : string)
         (hole_coord : coord),
    (forall p : Vector,
        contains (standoff_cylinder part_spec hole_name hole_coord) p = true ->
        0 <= vz p <= standoff_total_height part_spec)
    /\ (forall z : Q,
          0 <= z <= standoff_total_height part_spec ->
          contains (standoff_cylinder part_spec hole_name hole_coord)
                   (fst hole_coord, snd hole_coord, z) = true)
    /\ (forall p : Vector,
          contains (rounded_plate pc104 part_spec) p = true ->
          0 <= vz p <= base_plate_thickness part_spec)
    /\ standoff_total_height StandSpec_default
       - base_plate_thickness StandSpec_default == 7.5
    /\ ~ standoff_total_height StandSpec_default
         - base_plate_thickness StandSpec_default
         == standoff_total_height StandSpec_default
    /\ (In (hole_name, hole_coord) (hole_coord_list pc104) ->
        In (translate
              (Cylinder (standoff_radius part_spec hole_name)
                        (standoff_total_height part_spec)
                        (CENTER, CENTER, MIN))
              (fst hole_coord, snd hole_coord, 0))
           (added (make_pc104_standoff pc104 part_spec)))
    /\ (forall z : Q,
          contains (make_pc104_standoff PC104Spec_default StandSpec_default)
                   (plate_point z) = true
          <-> 0 <= z <= base_plate_thickness StandSpec_default)
    /\ (forall (item : string * coord) (z : Q),
          In item (hole_coord_list PC104Spec_default) ->
          (contains (make_pc104_standoff PC104Spec_default StandSpec_default)
                    (wall_point (snd item) z) = true
           <-> 0 <= z <= standoff_total_height StandSpec_default)
          /\ (contains
                (make_pc104_standoff PC104Spec_default StandSpec_default)
                (wall_point (snd item) z) = true
              /\ contains
                   (make_pc104_standoff PC104Spec_default StandSpec_default)
                   (plate_point z) = false
              <-> base_plate_thickness StandSpec_default < z
                  /\ z <= base_plate_thickness StandSpec_default + 7.5)).
Proof.
  intros pc104 part_spec hole_name hole_coord.
  split; [| split; [| split; [| split; [| split; [| split; [| split]]]]]].
  - intro p; apply standoff_extent.
  - intros z [Z1 Z2]; unfold standoff_cylinder.
    apply contains_cylinder; cbn [vx vy vz fst snd].
    split; [| split; lra].
    match goal with |- _ <= sq ?r => pose proof (sq_nonneg r) as R end.
    unfold sq in *; ring_simplify; ring_simplify in R; lra.
  - intros p C; apply contains_fillet_sub, plate_extent in C; tauto.
  - reflexivity.
  - intro E; vm_compute in E; discriminate E.
  - intro I; rewrite added_make.
    destruct I as [E | [E | [E | [E | []]]]]; inversion E;
      subst hole_name hole_coord; cbn [In]; auto 6.
  - intro z; apply default_plate_span.
  - intros item z I; split; [apply default_wall_span; exact I |].
    fold default_part.
    pose proof (default_wall_span item z I) as W.
    pose proof (default_plate_span z) as P.
    defaults_in W; defaults_in P; defaults.
    split.
    + intros [Cw Cp]; apply W in Cw; destruct Cw as [Z1 Z2].
      destruct (Qlt_le_dec 2.0 z) as [L | L]; [split; lra |].
      rewrite (proj2 P (conj Z1 L)) in Cp; discriminate Cp.
    + intros [Z1 Z2]; split; [apply W; split; lra |].
      destruct (contains default_part (plate_point z)) eqn:Cp;
        [exfalso | reflexivity].
      destruct (proj1 P eq_refl) as [_ Z3]; lra.
Qed.

(** C10, at the NE standoff of the default records: the top of its wall,
    z = 9.5, is in the built part and above the plate, whose top is at
    z = 2. *)
Lemma standoff_height_measured_from_plate_bottom_witness :
  In ("NE"%string, (85.73, 7.62)) (hole_coord_list PC104Spec_default)
  /\ contains (make_pc104_standoff PC104Spec_default StandSpec_default)
              (wall_point (85.73, 7.62) 9.5) = true
  /\ contains (make_pc104_standoff PC104Spec_default StandSpec_default)
              (plate_point 9.5) = false
  /\ contains (make_pc104_standoff PC104Spec_default StandSpec_default)
              (plate_point 2) = true
  /\ In (translate
           (Cylinder (standoff_radius StandSpec_default "NE")
                     (standoff_total_height StandSpec_default)
                     (CENTER, CENTER, MIN))
           (85.73, 7.62, 0))
        (added (make_pc104_standoff PC104Spec_default StandSpec_default)).
Proof.
  assert (I : In ("NE"%string, (85.73, 7.62))
                 (hole_coord_list PC104Spec_default))
    by (right; left; reflexivity).
  pose proof
    (standoff_height_measured_from_plate_bottom
       PC104Spec_default StandSpec_default "NE" (85.73, 7.62))
    as [_ [_ [_ [_ [_ [A [P W]]]]]]].
  destruct (W ("NE"%string, (85.73, 7.62)) 9.5 I) as [_ Above].
  assert (R : base_plate_thickness StandSpec_default < 9.5
              /\ 9.5 <= base_plate_thickness StandSpec_default + 7.5)
    by (split; vm_compute; first [reflexivity | discriminate]).
  destruct (proj2 Above R) as [Cw Cp].
  split; [exact I | split; [exact Cw | split; [exact Cp | split]]].
  - apply (proj2 (P 2)); split; vm_compute; discriminate.
  - exact (A I).
Defined.


(* ================================================================== *)
(** ** The driver *)

(** C9: the manifold check decides one thing only, whether the warning is
    logged.  Whatever the file system answers, the run with a manifold part
    and the run with a non-manifold part make the same export calls and end
    the same way, and the trace of the failed check is the trace of the
    passed one with the warning put in; once the output directory is there
    the STL export is always called, and the STEP export always follows an
    STL export that returned. *)
Theorem exports_do_not_depend_on_manifold :
  forall (w : world) (repo : string),
    let good := run (main (with_manifold w true) repo) in
    let bad := run (main (with_manifold w false) repo) in
    filter is_export (snd good) = filter is_export (snd bad)
    /\ filter (fun e => negb (is_warning e)) (snd bad) = snd good
    /\ fst good = fst bad
    /\ filter is_warning (snd good) = []
    /\ run (main w repo)
       = run (main (with_manifold w (is_manifold w default_part)) repo)
    /\ (mkdir_ok w = true ->
        filter is_warning (snd bad)
        = [ev_warning "Part 'pc104_standoff' is not manifold"]
        /\ forall m : bool,
             In (ev_export_stl default_part
                   ((repo ++ "/build") ++ "/pc104_standoff.stl")%string)
                (snd (run (main (with_manifold w m) repo)))
             /\ (export_stl_ok w = true ->
                 In (ev_export_step default_part
                       ((repo ++ "/build") ++ "/pc104_standoff.step")%string)
                    (snd (run (main (with_manifold w m) repo))))).
Proof.
  intros [man mk stl step] repo; cbv zeta.
  unfold main.
  change (make_pc104_standoff PC104Spec_default StandSpec_default)
    with default_part.
  destruct mk, stl, step; cbv - [default_part String.append].
  all: repeat split; try reflexivity; try discriminate.
  all: try (destruct (man default_part); reflexivity).
  all: intros; try (destruct m);
    repeat (first [left; reflexivity | right]).
Qed.

(** C9, in a world where every file-system call succeeds and the kernel
    reports a non-manifold part. *)
Lemma exports_do_not_depend_on_manifold_witness :
  mkdir_ok (mkWorld (fun _ => false) true true true) = true
  /\ filter is_warning
       (snd (run (main (with_manifold
                          (mkWorld (fun _ => false) true true true) false)
                       "repo")))
     = [ev_warning "Part 'pc104_standoff' is not manifold"]
  /\ filter is_export
       (snd (run (main (with_manifold
                          (mkWorld (fun _ => false) true true true) true)
                       "repo")))
     = filter is_export
         (snd (run (main (with_manifold
                            (mkWorld (fun _ => false) true true true) false)
                         "repo"))).
Proof.
  pose proof (exports_do_not_depend_on_manifold
                (mkWorld (fun _ => false) true true true) "repo") as T.
  cbv zeta in T.
  destruct T as [E [_ [_ [_ [_ W]]]]].
  split; [reflexivity | split; [exact (proj1 (W eq_refl)) | exact E]].
Defined.

(* ================================================================== *)
(** ** The loop, for any records and any list of holes *)

Lemma contains_drill_step (part_spec : StandSpec) (s : Part)
    (item : string * coord) (p : Vector) :
  contains (drill_step part_spec s item) p
  = (contains s p || contains (item_standoff part_spec item) p)
    && negb (contains (item_cutter part_spec item) p).
Proof. destruct item; reflexivity. Qed.

(** What is there before the loop and is in no cutter is still there after. *)
Lemma drill_keeps (part_spec : StandSpec) (items : list (string * coord))
    (s : Part) (p : Vector) :
  contains s p = true -> clear_of part_spec items p ->
  contains (fold_left (drill_step part_spec) items s) p = true.
Proof.
  revert s; induction items as [| item items IH]; intros s C Clr;
    [exact C |].
  cbn [fold_left]; apply IH.
  - rewrite contains_drill_step, C, (Clr item (or_introl eq_refl)).
    reflexivity.
  - intros it I; apply Clr; right; exact I.
Qed.

(** A point of the result was there before the loop and met no cutter, or
    it is a point of some standoff that no cutter from that pass on
    contains. *)
Lemma drill_origin (part_spec : StandSpec) (items : list (string * coord))
    (s : Part) (p : Vector) :
  contains (fold_left (drill_step part_spec) items s) p = true ->
  (contains s p = true /\ clear_of part_spec items p)
  \/ exists before item after,
       items = before ++ item :: after
       /\ contains (item_standoff part_spec item) p = true
       /\ clear_of part_spec (item :: after) p.
Proof.
  revert s; induction items as [| item items IH]; intros s C.
  - left; split; [exact C | intros it []].
  - cbn [fold_left] in C.
    destruct (IH _ C) as [[C' Clr] | [b [it [a [E [Cy Clr]]]]]].
    + rewrite contains_drill_step in C'.
      apply andb_true_iff in C'; destruct C' as [C' N].
      apply negb_true_iff in N.
      assert (Clr' : clear_of part_spec (item :: items) p).
      { intros it [E | I]; [subst it; exact N | exact (Clr it I)]. }
      apply orb_true_iff in C'; destruct C' as [C' | C'].
      * left; split; assumption.
      * right; exists [], item, items; repeat split; assumption.
    + right; exists (item :: b), it, a; subst items; repeat split;
        assumption.
Qed.

(** A standoff that no cutter from its own pass on contains stays. *)
Lemma drill_standoff_stays (part_spec : StandSpec)
    (before after : list (string * coord)) (item : string * coord)
    (s : Part) (p : Vector) :
  contains (item_standoff part_spec item) p = true ->
  clear_of part_spec (item :: after) p ->
  contains (fold_left (drill_step part_spec) (before ++ item :: after) s) p
  = true.
Proof.
  intros Cy Clr; rewrite fold_left_app; cbn [fold_left].
  apply drill_keeps.
  - rewrite contains_drill_step, Cy, (Clr item (or_introl eq_refl)).
    rewrite orb_true_r; reflexivity.
  - intros it I; apply Clr; right; exact I.
Qed.

(** A point of a cutter that is in the result is in a later standoff. *)
Lemma drill_refill (part_spec : StandSpec)
    (before after : list (string * coord)) (item : string * coord)
    (s : Part) (p : Vector) :
  contains (item_cutter part_spec item) p = true ->
  contains (fold_left (drill_step part_spec) (before ++ item :: after) s) p
  = true ->
  exists later, In later after
                /\ contains (item_standoff part_spec later) p = true.
Proof.
  intros Cut C; rewrite fold_left_app in C; cbn [fold_left] in C.
  destruct (drill_origin _ _ _ _ C) as [[C' _] | [b [it [a [E [Cy _]]]]]].
  - rewrite contains_drill_step, Cut in C'.
    rewrite andb_false_r in C'; discriminate C'.
  - exists it; split; [subst after; apply in_or_app; right; left; reflexivity
                      | exact Cy].
Qed.

Lemma make_as_loop (pc104 : PC104Spec) (part_spec : StandSpec) (p : Vector) :
  contains (make_pc104_standoff pc104 part_spec) p
  = contains (fold_left (drill_step part_spec) (hole_coord_list pc104)
                        (add Empty (rounded_plate pc104 part_spec))) p
    && negb (contains (header_cutter pc104) p).
Proof. reflexivity. Qed.

(** Where a point of the built part comes from. *)
Lemma make_origin :
  forall (pc104 : PC104Spec) (part_spec : StandSpec) (p : Vector),
    contains (make_pc104_standoff pc104 part_spec) p = true
    <-> contains (header_cutter pc104) p = false
        /\ ((contains (rounded_plate pc104 part_spec) p = true
             /\ clear_of part_spec (hole_coord_list pc104) p)
            \/ exists before item after,
                 hole_coord_list pc104 = before ++ item :: after
                 /\ contains (item_standoff part_spec item) p = true
                 /\ clear_of part_spec (item :: after) p).
Proof.
  intros pc104 part_spec p; rewrite make_as_loop, andb_true_iff, negb_true_iff.
  split.
  - intros [C H]; split; [exact H |].
    destruct (drill_origin _ _ _ _ C) as [[C' Clr] | R]; [left | right; exact R].
    split; [exact C' | exact Clr].
  - intros [H [[C Clr] | [b [it [a [E [Cy Clr]]]]]]]; split; try exact H.
    + apply drill_keeps; [exact C | exact Clr].
    + rewrite E; apply drill_standoff_stays; assumption.
Qed.

(** A point of a hole's cutter that is in the built part is in a later
    standoff. *)
Lemma refill_closed :
  forall (pc104 : PC104Spec) (part_spec : StandSpec)
         (before after : list (string * coord)) (item : string * coord)
         (p : Vector),
    hole_coord_list pc104 = before ++ item :: after ->
    contains (item_cutter part_spec item) p = true ->
    contains (make_pc104_standoff pc104 part_spec) p = true ->
    exists later, In later after
                  /\ contains (item_standoff part_spec later) p = true.
Proof.
  intros pc104 part_spec before after item p E Cut C.
  rewrite make_as_loop in C; apply andb_true_iff in C; destruct C as [C _].
  rewrite E in C; exact (drill_refill _ _ _ _ _ _ Cut C).
Qed.

(** No point of the SE cutter is in the built part. *)
Lemma last_cutter_closed :
  forall (pc104 : PC104Spec) (part_spec : StandSpec) (p : Vector),
    contains (hole_cutter part_spec "SE" (85.73, -72.39)) p = true ->
    contains (make_pc104_standoff pc104 part_spec) p = false.
Proof.
  intros pc104 part_spec p Cut.
  destruct (contains (make_pc104_standoff pc104 part_spec) p) eqn:C;
    [exfalso | reflexivity].
  rewrite make_as_loop in C; apply andb_true_iff in C; destruct C as [C _].
  destruct (drill_refill part_spec
              [ ("NW"%string, (0, 5.08)); ("NE"%string, (85.73, 7.62));
                ("SW"%string, (0, -68.58)) ] []
              ("SE"%string, (85.73, -72.39)) _ p Cut C) as [later [[] _]].
Qed.

(* ================================================================== *)
(** ** The built part, for any records *)

Lemma item_standoff_extent (part_spec : StandSpec) (item : string * coord)
    (p : Vector) :
  contains (item_standoff part_spec item) p = true ->
  sq (vx p - fst (snd item)) + sq (vy p - snd (snd item))
  <= sq (standoff_radius part_spec (fst item))
  /\ 0 <= vz p <= standoff_total_height part_spec.
Proof.
  unfold item_standoff, standoff_cylinder, standoff_radius; intro C.
  apply contains_cylinder in C; cbn [vx vy vz fst snd] in C.
  destruct C as [D [Z1 Z2]]; split; [exact D | split; lra].
Qed.

Lemma split_In {A : Type} (l b a : list A) (x : A) :
  l = b ++ x :: a -> In x l.
Proof. intro E; subst l; apply in_or_app; right; left; reflexivity. Qed.

(** The z range of the built part. *)
Lemma make_height_range :
  forall (pc104 : PC104Spec) (part_spec : StandSpec) (p : Vector),
    contains (make_pc104_standoff pc104 part_spec) p = true ->
    0 <= vz p
    /\ (vz p <= base_plate_thickness part_spec
        \/ vz p <= standoff_total_height part_spec).
Proof.
  intros pc104 part_spec p C; apply make_origin in C.
  destruct C as [_ [[Pl _] | [b [it [a [_ [Cy _]]]]]]].
  - apply contains_fillet_sub, plate_extent in Pl.
    destruct Pl as [_ [Z1 Z2]]; split; [exact Z1 | left; exact Z2].
  - apply item_standoff_extent in Cy.
    destruct Cy as [_ [Z1 Z2]]; split; [exact Z1 | right; exact Z2].
Qed.

Lemma standoff_radius_nonneg (part_spec : StandSpec) (name : string) :
  0 <= standoff_od_east part_spec -> 0 <= standoff_od_west part_spec ->
  0 <= standoff_radius part_spec name.
Proof.
  intros E W; unfold standoff_radius; rewrite Qdiv2.
  destruct (str_in name _); lra.
Qed.

(** X5: for all records such that the square around each standoff disc lies
    on the plate's rectangle (and the outer diameters are not negative), the
    whole built part lies in the footprint of size [box_width_x] by
    [box_height_y] anchored at [box_top_left_coord]. *)
Theorem part_within_footprint_when_standoffs_fit :
  forall (pc104 : PC104Spec) (part_spec : StandSpec) (p : Vector),
    standoffs_fit pc104 part_spec ->
    contains (make_pc104_standoff pc104 part_spec) p = true ->
    in_footprint pc104 p.
Proof.
  intros pc104 part_spec p [E [W Fit]] C; apply make_origin in C.
  destruct C as [_ [[Pl _] | [b [it [a [Sp [Cy _]]]]]]].
  - apply contains_fillet_sub, plate_extent in Pl; tauto.
  - apply item_standoff_extent in Cy; destruct Cy as [D _].
    apply disc_in_square in D;
      [| apply standoff_radius_nonneg; assumption].
    specialize (Fit it (split_In _ _ _ _ Sp)).
    unfold in_footprint.
    destruct D as [[X1 X2] [Y1 Y2]], Fit as [F1 [F2 [F3 F4]]].
    repeat split; lra.
Qed.

Lemma default_standoffs_fit :
  standoffs_fit PC104Spec_default StandSpec_default.
Proof.
  split; [vm_compute; discriminate | split; [vm_compute; discriminate |]].
  intros item [E | [E | [E | [E | []]]]]; subst item;
    vm_compute; repeat split; discriminate.
Defined.

(** Turn membership in a named standoff into the square around its disc. *)
Ltac standoff_square Cy :=
  let D := fresh "D" in
  let Z1 := fresh "Z" in
  let Z2 := fresh "Z" in
  unfold item_standoff, standoff_cylinder in Cy;
  apply contains_cylinder in Cy;
  cbn [fst snd vx vy vz str_in existsb String.eqb Ascii.eqb Bool.eqb orb] in Cy;
  destruct Cy as [D [Z1 Z2]];
  apply disc_in_square in D; [| rewrite Qdiv2; lra];
  rewrite !Qdiv2 in D.

Ltac column_square Col :=
  unfold in_hole_column in Col; cbn [fst snd] in Col;
  apply disc_in_square in Col; [| rewrite Qdiv2; lra];
  rewrite !Qdiv2 in Col.

(** The NW column, its wall included, is empty for slim records. *)
Lemma NW_hole_through_closed :
  forall (pc104 : PC104Spec) (part_spec : StandSpec),
    slim part_spec ->
    base_plate_thickness part_spec <= 10 ->
    standoff_total_height part_spec <= 10 ->
    hole_is_through (make_pc104_standoff pc104 part_spec) part_spec (0, 5.08).
Proof.
  intros pc104 part_spec [I0 [E0 [W0 [SE SW]]]] T10 H10 p Col.
  rewrite !Qdiv2 in SE, SW.
  destruct (contains (make_pc104_standoff pc104 part_spec) p) eqn:C;
    [exfalso | reflexivity].
  apply make_origin in C.
  assert (Own : -10 <= vz p <= 10 ->
                contains (item_cutter part_spec ("NW"%string, (0, 5.08))) p
                = true).
  { intro R; apply contains_hole_cutter; split; [exact Col |].
    unfold cutter_base; cbn [fst String.eqb Ascii.eqb Bool.eqb]; split; lra. }
  destruct C as [_ [[Pl Clr] | [b [it [a [Sp [Cy Clr]]]]]]].
  - apply contains_fillet_sub, plate_extent in Pl; destruct Pl as [_ [Z1 Z2]].
    pose proof (Clr _ (or_introl eq_refl)) as N.
    refine (eq_true_false_abs _ (Own _) N); split; lra.
  - pose proof (Clr _ (or_introl eq_refl)) as N.
    pose proof (split_In _ _ _ _ Sp) as I.
    destruct I as [E | [E | [E | [E | []]]]]; subst it.
    + apply item_standoff_extent in Cy; destruct Cy as [_ [Z1 Z2]].
      refine (eq_true_false_abs _ (Own _) N); split; lra.
    + standoff_square Cy; column_square Col; lra.
    + standoff_square Cy; column_square Col; lra.
    + standoff_square Cy; column_square Col; lra.
Qed.

(** The other three columns are empty from the plate surface upward. *)
Lemma other_holes_blind_closed :
  forall (pc104 : PC104Spec) (part_spec : StandSpec)
         (hole_name : string) (hole_coord : coord) (p : Vector),
    slim part_spec ->
    standoff_total_height part_spec <= base_plate_thickness part_spec + 20 ->
    In (hole_name, hole_coord)
       [ ("NE"%string, (85.73, 7.62)); ("SW"%string, (0, -68.58));
         ("SE"%string, (85.73, -72.39)) ] ->
    in_hole_column part_spec hole_coord p ->
    contains (make_pc104_standoff pc104 part_spec) p = true ->
    0 <= vz p /\ vz p < base_plate_thickness part_spec.
Proof.
  intros pc104 part_spec hole_name hole_coord p [I0 [E0 [W0 [SE SW]]]] H20
         I Col C.
  rewrite !Qdiv2 in SE, SW.
  split; [exact (proj1 (make_height_range _ _ _ C)) |].
  destruct (Qlt_le_dec (vz p) (base_plate_thickness part_spec)) as [L | L];
    [exact L | exfalso].
  assert (Own : vz p <= base_plate_thickness part_spec + 20 ->
                contains (item_cutter part_spec (hole_name, hole_coord)) p
                = true).
  { intro R; apply contains_hole_cutter; split; [exact Col |].
    unfold cutter_base; cbn [fst snd].
    destruct I as [E | [E | [E | []]]]; inversion E; subst hole_name;
      cbn [String.eqb Ascii.eqb Bool.eqb]; split; lra. }
  assert (I4 : In (hole_name, hole_coord) (hole_coord_list pc104))
    by (right; exact I).
  apply make_origin in C.
  destruct C as [_ [[Pl Clr] | [b [it [a [Sp [Cy Clr]]]]]]].
  - apply contains_fillet_sub, plate_extent in Pl; destruct Pl as [_ [Z1 Z2]].
    pose proof (Clr _ I4) as N.
    refine (eq_true_false_abs _ (Own _) N); lra.
  - pose proof (Clr _ (or_introl eq_refl)) as N.
    pose proof (split_In _ _ _ _ Sp) as J.
    destruct I as [E | [E | [E | []]]]; inversion E; subst hole_name hole_coord;
      clear E;
      destruct J as [E | [E | [E | [E | []]]]]; subst it.
    all: try (standoff_square Cy; column_square Col; lra).
    all: apply item_standoff_extent in Cy; destruct Cy as [_ [Z1 Z2]];
      refine (eq_true_false_abs _ (Own _) N); lra.
Qed.

Lemma sq_mono (a b : Q) : 0 <= a -> a <= b -> sq a <= sq b.
Proof.
  intros A B; unfold sq.
  assert (0 <= (b - a) * (b + a)) by (apply Qmult_le_0_compat; lra).
  lra.
Qed.

(** A bore as wide as the standoffs leaves nothing above the plate. *)
Lemma no_standoff_closed :
  forall (pc104 : PC104Spec) (part_spec : StandSpec) (p : Vector),
    0 <= standoff_od_east part_spec <= standoff_id part_spec ->
    0 <= standoff_od_west part_spec <= standoff_id part_spec ->
    standoff_total_height part_spec <= 10 ->
    standoff_total_height part_spec <= base_plate_thickness part_spec + 20 ->
    contains (make_pc104_standoff pc104 part_spec) p = true ->
    vz p <= base_plate_thickness part_spec.
Proof.
  intros pc104 part_spec p [E0 E1] [W0 W1] H10 H20 C.
  apply make_origin in C.
  destruct C as [_ [[Pl _] | [b [it [a [Sp [Cy Clr]]]]]]].
  - apply contains_fillet_sub, plate_extent in Pl; tauto.
  - pose proof (Clr _ (or_introl eq_refl)) as N.
    destruct (Qlt_le_dec (base_plate_thickness part_spec) (vz p)) as [L | L];
      [exfalso | exact L].
    apply item_standoff_extent in Cy; destruct Cy as [D [Z1 Z2]].
    assert (Col : in_hole_column part_spec (snd it) p).
    { unfold in_hole_column.
      apply Qle_trans with (1 := D), sq_mono.
      - apply standoff_radius_nonneg; assumption.
      - unfold standoff_radius; rewrite !Qdiv2.
        destruct (str_in (fst it) _); lra. }
    refine (eq_true_false_abs _ _ N).
    apply contains_hole_cutter; split; [exact Col |].
    unfold cutter_base; destruct (String.eqb (fst it) "NW"); split; lra.
Qed.

(** X5, for the default records, at the rim of the NE standoff. *)
Lemma part_within_footprint_when_standoffs_fit_witness :
  standoffs_fit PC104Spec_default StandSpec_default
  /\ contains (make_pc104_standoff PC104Spec_default StandSpec_default)
              (88.23, 7.62, 9.5) = true
  /\ in_footprint PC104Spec_default (88.23, 7.62, 9.5).
Proof.
  split; [exact default_standoffs_fit | split; [vm_compute; reflexivity |]].
  apply (part_within_footprint_when_standoffs_fit
           PC104Spec_default StandSpec_default (88.23, 7.62, 9.5)).
  - exact default_standoffs_fit.
  - vm_compute; reflexivity.
Defined.

Lemma default_slim : slim StandSpec_default.
Proof.
  repeat split; vm_compute; first [discriminate | reflexivity].
Defined.

(* ================================================================== *)
(** ** The built part, for records with positive sizes *)

Lemma column_closed (part_spec : StandSpec) (c : coord) (p : Vector) :
  strictly_in_column part_spec c p -> in_hole_column part_spec c p.
Proof. unfold strictly_in_column, in_hole_column; apply Qlt_le_weak. Qed.

Lemma cutter_closed (part_spec : StandSpec) (item : string * coord)
    (p : Vector) :
  strictly_in_cutter part_spec item p ->
  contains (item_cutter part_spec item) p = true.
Proof.
  intros [Col [Z1 Z2]]; apply contains_hole_cutter.
  split; [apply column_closed; exact Col | split; apply Qlt_le_weak; assumption].
Qed.

Lemma header_closed (pc104 : PC104Spec) (p : Vector) :
  strictly_in_header pc104 p -> contains (header_cutter pc104) p = true.
Proof.
  intros [X1 [X2 [Y1 [Y2 [Z1 Z2]]]]]; apply contains_header_cutter.
  unfold in_header_slot; repeat split; apply Qlt_le_weak; assumption.
Qed.

Lemma not_strictly (part_spec : StandSpec) (items : list (string * coord))
    (p : Vector) :
  clear_of part_spec items p ->
  forall item, In item items -> ~ strictly_in_cutter part_spec item p.
Proof.
  intros Clr item I S.
  exact (eq_true_false_abs _ (cutter_closed _ _ _ S) (Clr item I)).
Qed.

Lemma default_proper : proper PC104Spec_default StandSpec_default.
Proof. repeat split; vm_compute; reflexivity. Defined.

(** X1: for records with positive sizes, the built part is what the last
    operand to touch a point made of it.  A point of the part is not strictly
    inside the header box, and it is either a point of the rounded plate
    strictly inside no hole cutter, or a point of the standoff of some hole
    strictly inside neither that hole's cutter nor the cutter of any later
    hole.  Conversely a point outside the header box that is in the plate and
    in no cutter, or in a standoff and in no cutter from that hole on, is in
    the part. *)
Theorem part_is_last_touch :
  forall (pc104 : PC104Spec) (part_spec : StandSpec) (p : Vector),
    proper pc104 part_spec ->
    (contains (make_pc104_standoff pc104 part_spec) p = true ->
     ~ strictly_in_header pc104 p
     /\ ((contains (rounded_plate pc104 part_spec) p = true
          /\ forall item, In item (hole_coord_list pc104) ->
                          ~ strictly_in_cutter part_spec item p)
         \/ exists before item after,
              hole_coord_list pc104 = before ++ item :: after
              /\ contains (item_standoff part_spec item) p = true
              /\ forall later, In later (item :: after) ->
                               ~ strictly_in_cutter part_spec later p))
    /\ (contains (header_cutter pc104) p = false ->
        (contains (rounded_plate pc104 part_spec) p = true
         /\ clear_of part_spec (hole_coord_list pc104) p)
        \/ (exists before item after,
              hole_coord_list pc104 = before ++ item :: after
              /\ contains (item_standoff part_spec item) p = true
              /\ clear_of part_spec (item :: after) p) ->
        contains (make_pc104_standoff pc104 part_spec) p = true).
Proof.
  intros pc104 part_spec p _; split.
  - intro C; apply make_origin in C; destruct C as [H O]; split.
    + intro S; exact (eq_true_false_abs _ (header_closed _ _ S) H).
    + destruct O as [[Pl Clr] | [b [it [a [E [Cy Clr]]]]]].
      * left; split; [exact Pl | apply not_strictly; exact Clr].
      * right; exists b, it, a; split; [exact E | split; [exact Cy |]].
        apply not_strictly; exact Clr.
  - intros H O; apply make_origin; split; assumption.
Qed.

(** X1, at the rim of the default NE standoff. *)
Lemma part_is_last_touch_witness :
  proper PC104Spec_default StandSpec_default
  /\ contains (make_pc104_standoff PC104Spec_default StandSpec_default)
              (88.23, 7.62, 9.5) = true
  /\ ~ strictly_in_header PC104Spec_default (88.23, 7.62, 9.5).
Proof.
  assert (C : contains (make_pc104_standoff PC104Spec_default
                          StandSpec_default) (88.23, 7.62, 9.5) = true)
    by (vm_compute; reflexivity).
  split; [exact default_proper | split; [exact C |]].
  exact (proj1 (proj1 (part_is_last_touch PC104Spec_default StandSpec_default
                         (88.23, 7.62, 9.5) default_proper) C)).
Defined.

(** X2: for records with positive sizes, a point strictly inside a hole's
    cutter can be in the built part only if the standoff of a hole later in
    the iteration order contains it: a cut is undone by nothing but a
    standoff added afterwards. *)
Theorem hole_open_unless_refilled :
  forall (pc104 : PC104Spec) (part_spec : StandSpec)
         (before after : list (string * coord)) (item : string * coord)
         (p : Vector),
    proper pc104 part_spec ->
    hole_coord_list pc104 = before ++ item :: after ->
    strictly_in_cutter part_spec item p ->
    contains (make_pc104_standoff pc104 part_spec) p = true ->
    exists later, In later after
                  /\ contains (item_standoff part_spec later) p = true.
Proof.
  intros pc104 part_spec before after item p _ E S C.
  exact (refill_closed pc104 part_spec before after item p E
           (cutter_closed _ _ _ S) C).
Qed.

Lemma wide_east_proper :
  proper PC104Spec_default (mkStandSpec 2.0 3.0 9.5 3.5 200 5.8).
Proof. repeat split; vm_compute; reflexivity. Defined.

(** X2, with an east standoff 200 wide: the point (0, 5.08, 1), strictly
    inside the NW cutter, is back in the part, inside the NE standoff. *)
Lemma hole_open_unless_refilled_witness :
  strictly_in_cutter (mkStandSpec 2.0 3.0 9.5 3.5 200 5.8)
                     ("NW"%string, (0, 5.08)) (0, 5.08, 1)
  /\ contains (make_pc104_standoff PC104Spec_default
                 (mkStandSpec 2.0 3.0 9.5 3.5 200 5.8)) (0, 5.08, 1) = true
  /\ exists later,
       In later [ ("NE"%string, (85.73, 7.62)); ("SW"%string, (0, -68.58));
                  ("SE"%string, (85.73, -72.39)) ]
       /\ contains (item_standoff (mkStandSpec 2.0 3.0 9.5 3.5 200 5.8) later)
                   (0, 5.08, 1) = true.
Proof.
  assert (S : strictly_in_cutter (mkStandSpec 2.0 3.0 9.5 3.5 200 5.8)
                                 ("NW"%string, (0, 5.08)) (0, 5.08, 1))
    by (repeat split; vm_compute; reflexivity).
  split; [exact S | split; [vm_compute; reflexivity |]].
  apply (hole_open_unless_refilled PC104Spec_default
           (mkStandSpec 2.0 3.0 9.5 3.5 200 5.8)
           [] _ ("NW"%string, (0, 5.08)) (0, 5.08, 1) wide_east_proper).
  - reflexivity.
  - exact S.
  - vm_compute; reflexivity.
Defined.

(** X3: for records with positive sizes, no point strictly inside the SE
    hole cutter is in the built part: the last hole drilled cannot be filled
    again. *)
Theorem last_hole_always_open :
  forall (pc104 : PC104Spec) (part_spec : StandSpec) (p : Vector),
    proper pc104 part_spec ->
    strictly_in_cutter part_spec ("SE"%string, (85.73, -72.39)) p ->
    contains (make_pc104_standoff pc104 part_spec) p = false.
Proof.
  intros pc104 part_spec p _ S.
  exact (last_cutter_closed pc104 part_spec p (cutter_closed _ _ _ S)).
Qed.

(** X3, inside the SE bore of the part built with the wide east standoffs. *)
Lemma last_hole_always_open_witness :
  strictly_in_cutter (mkStandSpec 2.0 3.0 9.5 3.5 200 5.8)
                     ("SE"%string, (85.73, -72.39)) (85.73, -72.39, 5)
  /\ contains (make_pc104_standoff PC104Spec_default
                 (mkStandSpec 2.0 3.0 9.5 3.5 200 5.8))
              (85.73, -72.39, 5) = false.
Proof.
  assert (S : strictly_in_cutter (mkStandSpec 2.0 3.0 9.5 3.5 200 5.8)
                ("SE"%string, (85.73, -72.39)) (85.73, -72.39, 5))
    by (repeat split; vm_compute; reflexivity).
  split; [exact S |].
  exact (last_hole_always_open PC104Spec_default
           (mkStandSpec 2.0 3.0 9.5 3.5 200 5.8) (85.73, -72.39, 5)
           wide_east_proper S).
Defined.

(** X4: for records with positive sizes, every point of the built part has
    z >= 0, and z no higher than the plate thickness or the standoff height:
    nothing is ever added below the bottom face of the plate, although the
    NW cutter starts at z = -10. *)
Theorem part_height_range :
  forall (pc104 : PC104Spec) (part_spec : StandSpec) (p : Vector),
    proper pc104 part_spec ->
    contains (make_pc104_standoff pc104 part_spec) p = true ->
    0 <= vz p
    /\ (vz p <= base_plate_thickness part_spec
        \/ vz p <= standoff_total_height part_spec).
Proof.
  intros pc104 part_spec p _ C.
  destruct (make_height_range pc104 part_spec p C) as [Z0 Z1].
  split; [exact Z0 | exact Z1].
Qed.

(** X4, at the rim of the default NE standoff. *)
Lemma part_height_range_witness :
  proper PC104Spec_default StandSpec_default
  /\ contains (make_pc104_standoff PC104Spec_default StandSpec_default)
              (88.23, 7.62, 9.5) = true
  /\ 0 <= vz (88.23, 7.62, 9.5)
  /\ (vz (88.23, 7.62, 9.5) <= base_plate_thickness StandSpec_default
      \/ vz (88.23, 7.62, 9.5) <= standoff_total_height StandSpec_default).
Proof.
  split; [exact default_proper | split; [vm_compute; reflexivity |]].
  apply (part_height_range PC104Spec_default StandSpec_default
           (88.23, 7.62, 9.5) default_proper).
  vm_compute; reflexivity.
Defined.

(** X6: for records with positive sizes, hole radius plus standoff radius
    below 73.66, and plate thickness and standoff height below 10, the NW
    hole is open from end to end: no point strictly closer to its axis than
    the hole radius is in the built part. *)
Theorem NW_hole_through_when_slim :
  forall (pc104 : PC104Spec) (part_spec : StandSpec) (p : Vector),
    proper pc104 part_spec ->
    slim part_spec ->
    base_plate_thickness part_spec < 10 ->
    standoff_total_height part_spec < 10 ->
    strictly_in_column part_spec (0, 5.08) p ->
    contains (make_pc104_standoff pc104 part_spec) p = false.
Proof.
  intros pc104 part_spec p _ S T H Col.
  apply (NW_hole_through_closed pc104 part_spec S
           (Qlt_le_weak _ _ T) (Qlt_le_weak _ _ H) p).
  apply column_closed; exact Col.
Qed.

(** X6, for the default records, 1 east of the NW axis at z = 5. *)
Lemma NW_hole_through_when_slim_witness :
  proper PC104Spec_default StandSpec_default
  /\ slim StandSpec_default
  /\ strictly_in_column StandSpec_default (0, 5.08) (1, 5.08, 5)
  /\ contains (make_pc104_standoff PC104Spec_default StandSpec_default)
              (1, 5.08, 5) = false.
Proof.
  assert (Col : strictly_in_column StandSpec_default (0, 5.08) (1, 5.08, 5))
    by (vm_compute; reflexivity).
  split; [exact default_proper | split; [exact default_slim |
    split; [exact Col |]]].
  apply (NW_hole_through_when_slim PC104Spec_default StandSpec_default
           (1, 5.08, 5) default_proper default_slim).
  - vm_compute; reflexivity.
  - vm_compute; reflexivity.
  - exact Col.
Defined.

(** X7: for records with positive sizes, hole radius plus standoff radius
    below 73.66, and standoff height below plate thickness plus 20, the NE,
    SW and SE holes are blind: a point of the part strictly closer to such an
    axis than the hole radius has 0 <= z <= base_plate_thickness. *)
Theorem other_holes_blind_when_slim :
  forall (pc104 : PC104Spec) (part_spec : StandSpec)
         (hole_name : string) (hole_coord : coord) (p : Vector),
    proper pc104 part_spec ->
    slim part_spec ->
    standoff_total_height part_spec < base_plate_thickness part_spec + 20 ->
    In (hole_name, hole_coord)
       [ ("NE"%string, (85.73, 7.62)); ("SW"%string, (0, -68.58));
         ("SE"%string, (85.73, -72.39)) ] ->
    strictly_in_column part_spec hole_coord p ->
    contains (make_pc104_standoff pc104 part_spec) p = true ->
    0 <= vz p <= base_plate_thickness part_spec.
Proof.
  intros pc104 part_spec hole_name hole_coord p _ S H I Col C.
  destruct (other_holes_blind_closed pc104 part_spec hole_name hole_coord p
              S (Qlt_le_weak _ _ H) I (column_closed _ _ _ Col) C)
    as [Z0 Z1].
  split; [exact Z0 | apply Qlt_le_weak; exact Z1].
Qed.

Lemma thick_plate_proper :
  proper PC104Spec_default (mkStandSpec 4 3.0 9.5 3.5 6.5 5.8).
Proof. repeat split; vm_compute; reflexivity. Defined.

(** X7, with a plate 4 thick, on the axis of the SE hole at z = 3. *)
Lemma other_holes_blind_when_slim_witness :
  slim (mkStandSpec 4 3.0 9.5 3.5 6.5 5.8)
  /\ strictly_in_column (mkStandSpec 4 3.0 9.5 3.5 6.5 5.8)
                        (85.73, -72.39) (85.73, -72.39, 3)
  /\ contains (make_pc104_standoff PC104Spec_default
                 (mkStandSpec 4 3.0 9.5 3.5 6.5 5.8))
              (85.73, -72.39, 3) = true
  /\ 0 <= vz (85.73, -72.39, 3)
       <= base_plate_thickness (mkStandSpec 4 3.0 9.5 3.5 6.5 5.8).
Proof.
  assert (S : slim (mkStandSpec 4 3.0 9.5 3.5 6.5 5.8))
    by (repeat split; vm_compute; first [discriminate | reflexivity]).
  assert (Col : strictly_in_column (mkStandSpec 4 3.0 9.5 3.5 6.5 5.8)
                                   (85.73, -72.39) (85.73, -72.39, 3))
    by (vm_compute; reflexivity).
  assert (C : contains (make_pc104_standoff PC104Spec_default
                          (mkStandSpec 4 3.0 9.5 3.5 6.5 5.8))
                       (85.73, -72.39, 3) = true)
    by (vm_compute; reflexivity).
  split; [exact S | split; [exact Col | split; [exact C |]]].
  apply (other_holes_blind_when_slim PC104Spec_default
           (mkStandSpec 4 3.0 9.5 3.5 6.5 5.8)
           "SE" (85.73, -72.39) (85.73, -72.39, 3) thick_plate_proper S).
  - vm_compute; reflexivity.
  - right; right; left; reflexivity.
  - exact Col.
  - exact C.
Defined.

(** X8: a bore wider than both standoffs is accepted and drills the
    standoffs away: for records with positive sizes, both outer diameters
    below [standoff_id], standoff height below 10 and below plate thickness
    plus 20, no point of the built part lies above the plate surface. *)
Theorem no_standoff_when_bore_is_wider :
  forall (pc104 : PC104Spec) (part_spec : StandSpec) (p : Vector),
    proper pc104 part_spec ->
    standoff_od_east part_spec < standoff_id part_spec ->
    standoff_od_west part_spec < standoff_id part_spec ->
    standoff_total_height part_spec < 10 ->
    standoff_total_height part_spec < base_plate_thickness part_spec + 20 ->
    contains (make_pc104_standoff pc104 part_spec) p = true ->
    vz p <= base_plate_thickness part_spec.
Proof.
  intros pc104 part_spec p Pr E W H10 H20 C.
  destruct Pr as [_ [_ [_ [_ [_ [_ [_ [_ [E0 W0]]]]]]]]].
  apply (no_standoff_closed pc104 part_spec p); try exact C.
  - split; apply Qlt_le_weak; assumption.
  - split; apply Qlt_le_weak; assumption.
  - apply Qlt_le_weak; exact H10.
  - apply Qlt_le_weak; exact H20.
Qed.

Lemma wide_bore_proper :
  proper PC104Spec_default (mkStandSpec 2.0 3.0 9.5 8 6.5 5.8).
Proof. repeat split; vm_compute; reflexivity. Defined.

(** X8, with a bore of 8 against standoffs of 6.5 and 5.8: the point
    (40, 0, 1) of the plate is in the part, while on the NE standoff's wall
    nothing is left at z = 5. *)
Lemma no_standoff_when_bore_is_wider_witness :
  proper PC104Spec_default (mkStandSpec 2.0 3.0 9.5 8 6.5 5.8)
  /\ contains (make_pc104_standoff PC104Spec_default
                 (mkStandSpec 2.0 3.0 9.5 8 6.5 5.8)) (40, 0, 1) = true
  /\ vz (40, 0, 1) <= base_plate_thickness (mkStandSpec 2.0 3.0 9.5 8 6.5 5.8)
  /\ contains (make_pc104_standoff PC104Spec_default
                 (mkStandSpec 2.0 3.0 9.5 8 6.5 5.8)) (88.23, 7.62, 5)
     = false.
Proof.
  split; [exact wide_bore_proper |].
  split; [vm_compute; reflexivity | split; [| vm_compute; reflexivity]].
  apply (no_standoff_when_bore_is_wider PC104Spec_default
           (mkStandSpec 2.0 3.0 9.5 8 6.5 5.8) (40, 0, 1) wide_bore_proper).
  - vm_compute; reflexivity.
  - vm_compute; reflexivity.
  - vm_compute; reflexivity.
  - vm_compute; reflexivity.
  - vm_compute; reflexivity.
Defined.

(* ================================================================== *)
(** ** The hole pattern *)

(** X11: for every record the hole pattern is lopsided, as the class
    docstring notes: the west holes share x = 0 and the east holes share
    x = 85.73, but the two north holes are at different heights, and so are
    the two south holes; the west pair is 73.66 apart and the east pair
    80.01. *)
Theorem hole_pattern_not_symmetric :
  forall self : PC104Spec,
    exists nw ne sw se : coord,
      dict_get (hole_coord_list self) "NW" = Some nw
      /\ dict_get (hole_coord_list self) "NE" = Some ne
      /\ dict_get (hole_coord_list self) "SW" = Some sw
      /\ dict_get (hole_coord_list self) "SE" = Some se
      /\ fst nw == fst sw /\ fst ne == fst se
      /\ fst ne - fst nw == 85.73
      /\ ~ snd nw == snd ne /\ ~ snd sw == snd se
      /\ snd nw - snd sw == 73.66 /\ snd ne - snd se == 80.01.
Proof.
  intro self.
  exists (0, 5.08), (85.73, 7.62), (0, -68.58), (85.73, -72.39).
  repeat split; try reflexivity; intro E; vm_compute in E; discriminate E.
Qed.

(* ================================================================== *)
(** ** The driver, when calls fail *)

Lemma run_main (w : world) (repo : string) :
  run (main w repo)
  = if mkdir_ok w
    then for_each (export_part w (repo ++ "/build")%string)
                  [("pc104_standoff"%string, default_part)]
                  (opening_calls repo)
    else (Raise (OSError (repo ++ "/build")%string), opening_calls repo).
Proof.
  unfold run, main, show, logger_info, mkdir, call, seq, ret, opening_calls.
  cbn [app]; fold default_part.
  destruct (mkdir_ok w); reflexivity.
Qed.

(** One pass of the export loop, when the STEP export works. *)
Lemma export_part_trace (w : world) (export_folder : string)
    (item : string * Part) (t : list event) :
  export_step_ok w = true ->
  export_part w export_folder item t
  = (Ok tt, t ++ export_calls w export_folder item).
Proof.
  intros T; destruct item as [name part].
  unfold export_part, export_calls, export_stl, export_step, logger_warning,
    call, seq, ret; rewrite T; cbn [fst snd].
  destruct (is_manifold w part); cbn [negb app];
    rewrite <- ?app_assoc; reflexivity.
Qed.

Lemma export_part_ok (w : world) (export_folder : string)
    (item : string * Part) (t : list event) :
  export_stl_ok w = true -> export_step_ok w = true ->
  export_part w export_folder item t
  = (Ok tt, t ++ export_calls w export_folder item).
Proof. intros _ T; apply export_part_trace; exact T. Qed.

Lemma for_each_trace (w : world) (export_folder : string)
    (parts : list (string * Part)) (t : list event) :
  export_step_ok w = true ->
  for_each (export_part w export_folder) parts t
  = (Ok tt, t ++ flat_map (export_calls w export_folder) parts).
Proof.
  intro T; revert t; induction parts as [| item parts IH]; intro t.
  - cbn [for_each flat_map]; unfold ret; rewrite app_nil_r; reflexivity.
  - cbn [for_each flat_map]; unfold seq at 1.
    rewrite (export_part_trace w export_folder item t T), IH.
    rewrite <- app_assoc; reflexivity.
Qed.

(** X12: when the output directory cannot be made, the run ends with that
    error after [show], the log line and the [mkdir] call: the manifold check
    is not reached, nothing is logged as a warning and nothing is exported. *)
Theorem mkdir_failure_ends_run :
  forall (w : world) (repo : string),
    mkdir_ok w = false ->
    run (main w repo)
    = (Raise (OSError (repo ++ "/build")%string),
       [ ev_show default_part;
         ev_info "Showing CAD model(s)";
         ev_mkdir (repo ++ "/build")%string true ]).
Proof.
  intros w repo E; rewrite run_main, E; reflexivity.
Qed.

(** X12, in a world where only [mkdir] fails. *)
Lemma mkdir_failure_ends_run_witness :
  mkdir_ok (mkWorld (fun _ => true) false true true) = false
  /\ fst (run (main (mkWorld (fun _ => true) false true true) "repo"))
     = Raise (OSError "repo/build").
Proof.
  split; [reflexivity |].
  rewrite (mkdir_failure_ends_run
             (mkWorld (fun _ => true) false true true) "repo" eq_refl).
  reflexivity.
Defined.

(** X13: a failed STL export goes unnoticed.  [export_stl] reports failure
    by its return value, which the loop drops: whatever the STL writes
    return, if the STEP writes work the loop goes through every part, makes
    for each the same calls as when the STL was written, and returns
    normally. *)
Theorem stl_failure_goes_unnoticed :
  forall (w : world) (export_folder : string) (parts : list (string * Part))
         (t : list event),
    export_step_ok w = true ->
    for_each (export_part w export_folder) parts t
    = (Ok tt, t ++ flat_map (export_calls w export_folder) parts).
Proof.
  intros w export_folder parts t T; apply for_each_trace; exact T.
Qed.

(** X13, on two parts in a world where the STL write fails: both STEP
    exports are still called and the loop returns normally. *)
Lemma stl_failure_goes_unnoticed_witness :
  export_stl_ok (mkWorld (fun _ => true) true false true) = false
  /\ for_each
       (export_part (mkWorld (fun _ => true) true false true) "out")
       [("a"%string, Box 1 1 1 (MIN, MIN, MIN)); ("b"%string, Empty)] []
     = (Ok tt,
        [ ev_export_stl (Box 1 1 1 (MIN, MIN, MIN)) "out/a.stl";
          ev_export_step (Box 1 1 1 (MIN, MIN, MIN)) "out/a.step";
          ev_export_stl Empty "out/b.stl";
          ev_export_step Empty "out/b.step" ]).
Proof.
  split; [reflexivity |].
  rewrite (stl_failure_goes_unnoticed
             (mkWorld (fun _ => true) true false true) "out"
             [("a"%string, Box 1 1 1 (MIN, MIN, MIN)); ("b"%string, Empty)]
             [] eq_refl).
  reflexivity.
Defined.

(** X14: the run returns normally exactly when [mkdir] and the STEP export
    succeed, whatever the manifold check and the STL export answer; it has
    then made, in this order, the calls [show], [info], [mkdir], the warning
    if the part is not manifold, [export_stl] and [export_step], both exports
    with the same part and the same folder and stem. *)
Theorem run_succeeds_iff_mkdir_and_step :
  forall (w : world) (repo : string),
    (fst (run (main w repo)) = Ok tt
     <-> mkdir_ok w = true /\ export_step_ok w = true)
    /\ (fst (run (main w repo)) = Ok tt ->
        snd (run (main w repo))
        = [ ev_show default_part;
            ev_info "Showing CAD model(s)";
            ev_mkdir (repo ++ "/build")%string true ]
          ++ (if is_manifold w default_part
              then []
              else [ev_warning "Part 'pc104_standoff' is not manifold"])
          ++ [ ev_export_stl default_part
                 ((repo ++ "/build") ++ "/pc104_standoff.stl")%string;
               ev_export_step default_part
                 ((repo ++ "/build") ++ "/pc104_standoff.step")%string ]).
Proof.
  intros w repo; rewrite run_main.
  unfold for_each, export_part, export_stl, export_step, logger_warning,
    call, seq, ret, opening_calls.
  destruct (mkdir_ok w), (export_step_ok w),
    (is_manifold w default_part); cbn [negb app fst snd].
  all: split; [split; [intro H | intros [A B]] | intro H];
    try discriminate; try reflexivity; repeat split.
Qed.

(** X14, in a world where the STL write fails and all else works: the run
    still returns normally, after five calls. *)
Lemma run_succeeds_iff_mkdir_and_step_witness :
  fst (run (main (mkWorld (fun _ => true) true false true) "repo")) = Ok tt
  /\ List.length
       (snd (run (main (mkWorld (fun _ => true) true false true) "repo")))
     = 5%nat.
Proof.
  assert (R : fst (run (main (mkWorld (fun _ => true) true false true)
                             "repo")) = Ok tt)
    by (apply (proj1 (run_succeeds_iff_mkdir_and_step
                        (mkWorld (fun _ => true) true false true) "repo"));
        repeat split).
  split; [exact R |].
  rewrite (proj2 (run_succeeds_iff_mkdir_and_step
                    (mkWorld (fun _ => true) true false true) "repo") R).
  reflexivity.
Defined.

(** X15: the export loop, run on any list of named parts in a world where
    both exports succeed, returns normally and appends to the trace, part by
    part and in the list's order, the warning if that part is not manifold,
    its STL export and its STEP export. *)
Theorem export_loop_trace :
  forall (w : world) (export_folder : string) (parts : list (string * Part))
         (t : list event),
    export_stl_ok w = true -> export_step_ok w = true ->
    for_each (export_part w export_folder) parts t
    = (Ok tt, t ++ flat_map (export_calls w export_folder) parts).
Proof.
  intros w export_folder parts t S T; revert t.
  induction parts as [| item parts IH]; intro t.
  - cbn [for_each flat_map]; unfold ret; rewrite app_nil_r; reflexivity.
  - cbn [for_each flat_map]; unfold seq at 1.
    rewrite (export_part_ok w export_folder item t S T), IH.
    rewrite <- app_assoc; reflexivity.
Qed.

(** X15, on two parts, the second not manifold. *)
Lemma export_loop_trace_witness :
  fst (for_each
         (export_part (mkWorld (fun s => match s with Empty => false
                                                    | _ => true end)
                               true true true) "out")
         [("a"%string, Box 1 1 1 (MIN, MIN, MIN)); ("b"%string, Empty)] [])
  = Ok tt
  /\ count_calls is_export
       (snd (for_each
               (export_part (mkWorld (fun s => match s with Empty => false
                                                          | _ => true end)
                                     true true true) "out")
               [("a"%string, Box 1 1 1 (MIN, MIN, MIN)); ("b"%string, Empty)]
               []))
     = 4%nat
  /\ count_calls is_warning
       (snd (for_each
               (export_part (mkWorld (fun s => match s with Empty => false
                                                          | _ => true end)
                                     true true true) "out")
               [("a"%string, Box 1 1 1 (MIN, MIN, MIN)); ("b"%string, Empty)]
               []))
     = 1%nat.
Proof.
  rewrite (export_loop_trace
             (mkWorld (fun s => match s with Empty => false | _ => true end)
                      true true true) "out"
             [("a"%string, Box 1 1 1 (MIN, MIN, MIN)); ("b"%string, Empty)]
             [] eq_refl eq_refl).
  repeat split.
Defined.

(** X16: the export loop stops at the first part whose STEP export fails:
    that part's warning, STL export and STEP export have been called, the
    error is [RuntimeError], and no later part is reached. *)
Theorem export_loop_stops_at_step_failure :
  forall (w : world) (export_folder : string) (item : string * Part)
         (rest : list (string * Part)) (t : list event),
    export_step_ok w = false ->
    for_each (export_part w export_folder) (item :: rest) t
    = (Raise (RuntimeError "Failed to write STEP file"),
       t ++ export_calls w export_folder item).
Proof.
  intros w export_folder [name part] rest t S.
  cbn [for_each fst snd].
  unfold export_part, export_calls, export_stl, export_step, logger_warning,
    call, seq, ret; rewrite S; cbn [fst snd].
  destruct (is_manifold w part); cbn [negb app];
    rewrite <- ?app_assoc; reflexivity.
Qed.

(** X16, on two parts in a world where the STEP write fails: the first
    part's two exports are called, the second part's none. *)
Lemma export_loop_stops_at_step_failure_witness :
  export_step_ok (mkWorld (fun _ => true) true true false) = false
  /\ for_each
       (export_part (mkWorld (fun _ => true) true true false) "out")
       [("a"%string, Box 1 1 1 (MIN, MIN, MIN)); ("b"%string, Empty)] []
     = (Raise (RuntimeError "Failed to write STEP file"),
        [ ev_export_stl (Box 1 1 1 (MIN, MIN, MIN)) "out/a.stl";
          ev_export_step (Box 1 1 1 (MIN, MIN, MIN)) "out/a.step" ]).
Proof.
  split; [reflexivity |].
  rewrite (export_loop_stops_at_step_failure
             (mkWorld (fun _ => true) true true false) "out"
             ("a"%string, Box 1 1 1 (MIN, MIN, MIN))
             [("b"%string, Empty)] [] eq_refl).
  reflexivity.
Defined.
